(** * Verification of the parametric base cabinet and the block importer

    Shallow embedding of
    - [src/GRASSHOPPER/FURNITURE/parametric_cabinet.py]
      ([create_parametric_cabinet]), and
    - [src/scripts/BlockLibrary.py] ([insert_block], [load_catalog],
      [get_blocks_by_category], [browse_and_insert]).

    Numbers of the cabinet script are modelled as exact rationals [Q]:
    every constant of the script is a dyadic rational (or, for the hinge
    offset 1.46, a decimal), and Python float rounding is not modelled. *)

From Stdlib Require Import QArith Qminmax Lqa ZArith List String Ascii Bool Lia.
From Stdlib Require Import Permutation Sorted.
Import ListNotations.

Open Scope Q_scope.

(** ** Rhino geometry: points, planes, intervals, boxes *)

Record Point3d := mkPoint { px : Q; py : Q; pz : Q }.

Definition XAxis : Point3d := mkPoint 1 0 0.
Definition YAxis : Point3d := mkPoint 0 1 0.
Definition ZAxis : Point3d := mkPoint 0 0 1.

(** [rg.Plane(origin, xDirection, yDirection)]; the plane normal (local Z)
    is [xDirection x yDirection]. The script only passes unit world axes,
    so no normalisation is needed. *)
Record Plane := mkPlane { origin : Point3d; xdir : Point3d; ydir : Point3d }.

Definition cross (a b : Point3d) : Point3d :=
  mkPoint (py a * pz b - pz a * py b)
          (pz a * px b - px a * pz b)
          (px a * py b - py a * px b).

Definition zdir (pl : Plane) : Point3d := cross (xdir pl) (ydir pl).

(** [rg.Interval(t0, t1)]. *)
Record Interval := mkInterval { t0 : Q; t1 : Q }.

(** [rg.Box(plane, xSize, ySize, zSize)]. *)
Record Box := mkBox { bplane : Plane; xsize : Interval; ysize : Interval; zsize : Interval }.

(** Objects the script appends to [objects]: Breps built from boxes and
    points, each with the name set through [Attributes.Name]. *)
Inductive Obj :=
| BrepObj (name : string) (b : Box)
| PointObj (name : string) (p : Point3d).

Definition obj_name (o : Obj) : string :=
  match o with BrepObj n _ => n | PointObj n _ => n end.

(** Decimal rendering of a natural number, for [f"Shelf {i+1}"]. *)
Fixpoint digits_aux (fuel n : nat) (acc : string) : string :=
  match fuel with
  | O => acc
  | S fuel' =>
      let d := Nat.modulo n 10 in
      let acc' := String (ascii_of_nat (48 + d)) acc in
      if Nat.ltb n 10 then acc' else digits_aux fuel' (Nat.div n 10) acc'
  end.

Definition nat_to_string (n : nat) : string := digits_aux (S n) n EmptyString.

(** ** [create_parametric_cabinet] *)

Section Cabinet.

Variables (width depth height : Q) (shelf_count : Z) (thickness : Q).

Definition back_thickness : Q := 1#2.
Definition side_width : Q := depth - (7#8).
Definition door_gap : Q := 1#8.
Definition top_gap : Q := 1#8.
Definition bottom_gap : Q := 0.

Definition left_side : Box :=
  mkBox (mkPlane (mkPoint 0 0 0) XAxis YAxis)
        (mkInterval 0 thickness) (mkInterval 0 side_width) (mkInterval 0 height).

Definition right_side : Box :=
  mkBox (mkPlane (mkPoint (width - thickness) 0 0) XAxis YAxis)
        (mkInterval 0 thickness) (mkInterval 0 side_width) (mkInterval 0 height).

Definition back_width : Q := width - 1.

Definition back : Box :=
  mkBox (mkPlane (mkPoint (1#2) (side_width - 1 + back_thickness) 0) XAxis ZAxis)
        (mkInterval 0 back_width) (mkInterval 0 back_thickness) (mkInterval 0 height).

Definition bottom_width : Q := width - (3#2).
Definition bottom_depth : Q := side_width - 1 - (1#16).

Definition bottom : Box :=
  mkBox (mkPlane (mkPoint thickness (1#16) 0) XAxis YAxis)
        (mkInterval 0 bottom_width) (mkInterval 0 bottom_depth) (mkInterval 0 thickness).

Definition stretcher_width : Q := 4.

Definition front_stretcher : Box :=
  mkBox (mkPlane (mkPoint thickness (65#16) (height - stretcher_width)) XAxis YAxis)
        (mkInterval 0 bottom_width) (mkInterval 0 thickness) (mkInterval 0 stretcher_width).

Definition back_stretcher : Box :=
  mkBox (mkPlane (mkPoint thickness (side_width - 1) (height - stretcher_width)) XAxis YAxis)
        (mkInterval 0 bottom_width) (mkInterval 0 thickness) (mkInterval 0 stretcher_width).

(** Adjustable shelves, only computed when [shelf_count > 0]. *)
Definition shelf_width : Q := bottom_width - (1#16).
Definition shelf_depth : Q := side_width - (5#4).
Definition available_height : Q := height - (3#2) - (inject_Z shelf_count * thickness).
Definition shelf_spacing : Q := available_height / (inject_Z shelf_count + 1).

Definition z_pos (i : nat) : Q :=
  thickness + ((inject_Z (Z.of_nat i) + 1) * shelf_spacing) + (inject_Z (Z.of_nat i) * thickness).

Definition shelf (i : nat) : Box :=
  mkBox (mkPlane (mkPoint (thickness + (1#32)) (1#4) (z_pos i)) XAxis YAxis)
        (mkInterval 0 shelf_width) (mkInterval 0 shelf_depth) (mkInterval 0 thickness).

(** [for i in range(shelf_count)] inside [if shelf_count > 0]. *)
Definition shelves : list Obj :=
  if Z.ltb 0 shelf_count
  then map (fun i => BrepObj ("Shelf " ++ nat_to_string (S i)) (shelf i))
           (seq 0 (Z.to_nat shelf_count))
  else [].

Definition door_height : Q := height - top_gap - bottom_gap.
Definition door_width : Q := (width - door_gap) / 2 - door_gap.

Definition left_door : Box :=
  mkBox (mkPlane (mkPoint (door_gap / 2) (-(7#8)) bottom_gap) XAxis YAxis)
        (mkInterval 0 door_width) (mkInterval 0 thickness) (mkInterval 0 door_height).

Definition right_door : Box :=
  mkBox (mkPlane (mkPoint (width / 2 + door_gap / 2) (-(7#8)) bottom_gap) XAxis YAxis)
        (mkInterval 0 door_width) (mkInterval 0 thickness) (mkInterval 0 door_height).

Definition hinge_z_positions : list Q := [3; height - 3].

Definition hinges (x : Q) (side : string) : list Obj :=
  map (fun iz => PointObj ("Hinge " ++ side ++ " " ++ nat_to_string (S (fst iz)))
                          (mkPoint x (146#100) (snd iz)))
      (combine (seq 0 (List.length hinge_z_positions)) hinge_z_positions).

Definition pull_from_edge : Q := 37#8.
Definition pull_from_top : Q := 1#16.
Definition left_pull_x : Q := width / 2 - pull_from_edge - door_gap / 2.
Definition right_pull_x : Q := width / 2 + pull_from_edge + door_gap / 2.

(** The objects the script builds and collects in [objects], in the order
    of the [append] calls, when every [AddBrep] succeeds; the failure of an
    addition is modelled by [run_create_parametric_cabinet] below. *)
Definition create_parametric_cabinet : list Obj :=
  [BrepObj "Side Left" left_side;
   BrepObj "Side Right" right_side;
   BrepObj "Back" back;
   BrepObj "Bottom" bottom;
   BrepObj "Front Stretcher" front_stretcher;
   BrepObj "Back Stretcher" back_stretcher]
  ++ shelves
  ++ [BrepObj "Door Left" left_door; BrepObj "Door Right" right_door]
  ++ hinges thickness "Left"
  ++ hinges (width - thickness) "Right"
  ++ [PointObj "Pull Left" (mkPoint left_pull_x (-(7#8)) (height - pull_from_top - top_gap));
      PointObj "Pull Right" (mkPoint right_pull_x (-(7#8)) (height - pull_from_top - top_gap))].

End Cabinet.

(** ** Nominal placement of a box in world coordinates *)

Definition coord (k : nat) (p : Point3d) : Q :=
  match k with O => px p | 1%nat => py p | _ => pz p end.

(** Extent of [c * [t0, t1]]; Rhino intervals may be decreasing. *)
Definition scale_iv (c : Q) (iv : Interval) : Q * Q :=
  (Qmin (c * t0 iv) (c * t1 iv), Qmax (c * t0 iv) (c * t1 iv)).

(** Range of world coordinate [k] covered by box [b]: the origin plus the
    three sizes laid along the plane's X, Y and normal directions. *)
Definition world_iv (b : Box) (k : nat) : Q * Q :=
  let pl := bplane b in
  let ix := scale_iv (coord k (xdir pl)) (xsize b) in
  let iy := scale_iv (coord k (ydir pl)) (ysize b) in
  let iz := scale_iv (coord k (zdir pl)) (zsize b) in
  (coord k (origin pl) + fst ix + fst iy + fst iz,
   coord k (origin pl) + snd ix + snd iy + snd iz).

(** The open coordinate ranges of the two boxes intersect along each world
    axis. This does not require the ranges to be non-empty: for boxes whose
    three ranges are non-empty ([box_nonempty]) it says that their
    interiors intersect. *)
Definition overlap (b1 b2 : Box) : Prop :=
  forall k, (k < 3)%nat ->
    fst (world_iv b1 k) < snd (world_iv b2 k) /\ fst (world_iv b2 k) < snd (world_iv b1 k).

(** Every world coordinate range of the box is non-empty. *)
Definition box_nonempty (b : Box) : Prop :=
  forall k, (k < 3)%nat -> fst (world_iv b k) < snd (world_iv b k).

(** The Breps of an objects list. *)
Fixpoint breps (l : list Obj) : list Box :=
  match l with
  | [] => []
  | BrepObj _ b :: l' => b :: breps l'
  | PointObj _ _ :: l' => breps l'
  end.

(** No two distinct Breps of the list overlap (in the sense of [overlap]). *)
Definition pairwise_disjoint (l : list Obj) : Prop :=
  forall i j b1 b2, i <> j ->
    nth_error (breps l) i = Some b1 -> nth_error (breps l) j = Some b2 -> ~ overlap b1 b2.

(** First object of the list carrying a given name. *)
Fixpoint find_obj (n : string) (l : list Obj) : option Obj :=
  match l with
  | [] => None
  | o :: l' => if String.eqb (obj_name o) n then Some o else find_obj n l'
  end.

(** Length of an [rg.Interval]. *)
Definition iv_len (iv : Interval) : Q := t1 iv - t0 iv.

Definition Qltb (x y : Q) : bool := negb (Qle_bool y x).

(** All three sizes of a box are positive. *)
Definition extents_positive (b : Box) : bool :=
  Qltb 0 (iv_len (xsize b)) && Qltb 0 (iv_len (ysize b)) && Qltb 0 (iv_len (zsize b)).

(** Some size of the box is zero. *)
Definition has_zero_size (b : Box) : bool :=
  Qeq_bool (iv_len (xsize b)) 0 || Qeq_bool (iv_len (ysize b)) 0
  || Qeq_bool (iv_len (zsize b)) 0.

(** [id = sc.doc.Objects.AddBrep(box.ToBrep())], [objects.append(id)] and
    [sc.doc.Objects.Find(id).Attributes.Name = ...] for each object in
    turn. Rhino's [Box.ToBrep()] returns [None] for a box it cannot turn
    into a Brep (one with a zero size, for instance); the addition then
    fails, or adds nothing and [Find] gives [None], and the attribute access
    raises. [to_brep_ok b] says whether [ToBrep()] returns a Brep for [b];
    which boxes Rhino accepts is left to the hypotheses of the theorems.
    [AddPoint] always succeeds. [None] is the exception that escapes the
    script, [Some objs] the [objects] list once all objects are added. *)
Fixpoint add_objects (to_brep_ok : Box -> bool) (l : list Obj) : option (list Obj) :=
  match l with
  | [] => Some []
  | BrepObj n b :: l' =>
      if to_brep_ok b then option_map (cons (BrepObj n b)) (add_objects to_brep_ok l')
      else None
  | PointObj n p :: l' => option_map (cons (PointObj n p)) (add_objects to_brep_ok l')
  end.

(** The script up to the last [append] (line 202); the layer assignment and
    the prints that follow are not modelled. *)
Definition run_create_parametric_cabinet (to_brep_ok : Box -> bool)
  (width depth height : Q) (shelf_count : Z) (thickness : Q) : option (list Obj) :=
  add_objects to_brep_ok (create_parametric_cabinet width depth height shelf_count thickness).

(** Validity of an input as the spec defines it: the checks of its
    ParameterValidator (4.1) and of DegenerateGeometry (4.2: every produced
    extent, and the shelf spacing when shelves are produced, is positive).
    The script itself contains no such check; this predicate only states
    which inputs the claims quantify over. *)
Definition spec_valid (width depth height : Q) (shelf_count : Z) (thickness : Q) : bool :=
  Qltb 0 width && Qltb 0 depth && Qltb 0 height && Qltb 0 thickness
  && Qltb thickness (width / 2) && Qltb thickness (depth / 2) && Qltb thickness (height / 2)
  && Z.leb 0 shelf_count
  && forallb extents_positive
             (breps (create_parametric_cabinet width depth height shelf_count thickness))
  && (if Z.ltb 0 shelf_count
      then Qltb 0 (shelf_spacing height shelf_count thickness) else true).

Example names_default :
  map obj_name (create_parametric_cabinet 30 24 (61#2) 1 (3#4)) =
  ["Side Left"; "Side Right"; "Back"; "Bottom"; "Front Stretcher"; "Back Stretcher";
   "Shelf 1"; "Door Left"; "Door Right"; "Hinge Left 1"; "Hinge Left 2";
   "Hinge Right 1"; "Hinge Right 2"; "Pull Left"; "Pull Right"]%string.
Proof. reflexivity. Qed.

Example default_valid : spec_valid 30 24 (61#2) 1 (3#4) = true.
Proof. reflexivity. Qed.

(** ** General facts about the objects list *)

Definition carcase_names : list string :=
  ["Side Left"; "Side Right"; "Back"; "Bottom"; "Front Stretcher"; "Back Stretcher"]%string.

Definition front_and_hardware_names : list string :=
  ["Door Left"; "Door Right"; "Hinge Left 1"; "Hinge Left 2";
   "Hinge Right 1"; "Hinge Right 2"; "Pull Left"; "Pull Right"]%string.

Definition shelf_names (n : Z) : list string :=
  map (fun i => String.append "Shelf "%string (nat_to_string (S i))) (seq 0 (Z.to_nat n)).

Lemma Z_to_nat_nonpos (n : Z) : (n <= 0)%Z -> Z.to_nat n = O.
Proof. intros H. destruct n; [reflexivity | lia | reflexivity]. Qed.

Lemma shelves_names w d h n t :
  map obj_name (shelves w d h n t) = shelf_names n.
Proof.
  unfold shelves, shelf_names.
  destruct (Z.ltb_spec 0 n) as [Hn | Hn].
  - rewrite map_map. reflexivity.
  - rewrite (Z_to_nat_nonpos n Hn). reflexivity.
Qed.

Lemma cabinet_names w d h n t :
  map obj_name (create_parametric_cabinet w d h n t) =
  carcase_names ++ shelf_names n ++ front_and_hardware_names.
Proof.
  unfold create_parametric_cabinet.
  rewrite !map_app, shelves_names. reflexivity.
Qed.

Lemma length_shelf_names n : List.length (shelf_names n) = Z.to_nat n.
Proof. unfold shelf_names. rewrite length_map, length_seq. reflexivity. Qed.

Lemma breps_app l1 l2 : breps (l1 ++ l2) = breps l1 ++ breps l2.
Proof.
  induction l1 as [|o l1 IH]; [reflexivity|].
  destruct o; simpl; rewrite ?IH; reflexivity.
Qed.

Lemma breps_shelves_length w d h n t :
  List.length (breps (shelves w d h n t)) = Z.to_nat n.
Proof.
  unfold shelves. destruct (Z.ltb_spec 0 n) as [Hn | Hn].
  - generalize 0%nat. induction (Z.to_nat n) as [|m IH]; intros s; [reflexivity|].
    simpl. rewrite IH. reflexivity.
  - rewrite (Z_to_nat_nonpos n Hn). reflexivity.
Qed.

Lemma find_obj_app_none nm l1 l2 :
  ~ In nm (map obj_name l1) -> find_obj nm (l1 ++ l2) = find_obj nm l2.
Proof.
  induction l1 as [|o l1 IH]; intros Hnot; [reflexivity|].
  simpl in *. destruct (String.eqb_spec (obj_name o) nm) as [E | E].
  - exfalso. apply Hnot. left. exact E.
  - apply IH. intros Hin. apply Hnot. right. exact Hin.
Qed.

(** A name whose first character is not ['S'] is no shelf name. *)
Lemma not_in_shelf_names c rest n :
  c <> "S"%char -> ~ In (String c rest) (shelf_names n).
Proof.
  intros Hc Hin. unfold shelf_names in Hin.
  apply in_map_iff in Hin. destruct Hin as [i [Heq _]].
  injection Heq as Hc' _. apply Hc. symmetry. exact Hc'.
Qed.

Lemma find_obj_cabinet_front nm w d h n t :
  ~ In nm carcase_names -> ~ In nm (shelf_names n) ->
  exists rest,
    find_obj nm (create_parametric_cabinet w d h n t) =
    find_obj nm (BrepObj "Door Left" (left_door w h t)
                 :: BrepObj "Door Right" (right_door w h t) :: rest).
Proof.
  intros H1 H2. eexists. unfold create_parametric_cabinet.
  rewrite find_obj_app_none by exact H1.
  rewrite find_obj_app_none by (rewrite shelves_names; exact H2).
  reflexivity.
Qed.

(** ** Claims about [create_parametric_cabinet] *)

(** Claim C10: for every input with shelf_count = N >= 0 the objects list
    holds, in this order, the six carcase panels (two sides, back, bottom,
    two stretchers), the N shelves, the two doors, the four hinge points and
    the two pull points: 14 + N entries, 8 + N of them Breps. *)
Theorem cabinet_layout w d h n t :
  map obj_name (create_parametric_cabinet w d h n t) =
    carcase_names ++ shelf_names n ++ front_and_hardware_names
  /\ List.length (create_parametric_cabinet w d h n t) = (14 + Z.to_nat n)%nat
  /\ List.length (breps (create_parametric_cabinet w d h n t)) = (8 + Z.to_nat n)%nat.
Proof.
  split; [apply cabinet_names|]. split.
  - rewrite <- (length_map obj_name), cabinet_names, !length_app, length_shelf_names.
    simpl. lia.
  - unfold create_parametric_cabinet. rewrite !breps_app, !length_app, breps_shelves_length.
    simpl. lia.
Qed.

Lemma add_objects_spec f l :
  add_objects f l = if forallb f (breps l) then Some l else None.
Proof.
  induction l as [|[nm b | nm p] l IH]; simpl; [reflexivity | |].
  - destruct (f b); simpl; [|reflexivity].
    rewrite IH. destruct (forallb f (breps l)); reflexivity.
  - rewrite IH. destruct (forallb f (breps l)); reflexivity.
Qed.

Lemma forallb_false_exists {A} (f : A -> bool) l :
  forallb f l = false <-> exists x, In x l /\ f x = false.
Proof.
  induction l as [|x l IH]; simpl.
  - split; [discriminate | intros (? & [] & _)].
  - destruct (f x) eqn:Ef; simpl; rewrite ?IH; split.
    + intros (y & Hy & Hf). exists y. auto.
    + intros (y & [<- | Hy] & Hf); [congruence | eauto].
    + intros _. exists x. auto.
    + reflexivity.
Qed.

Lemma zero_size_not_positive b : has_zero_size b = true -> extents_positive b = false.
Proof.
  unfold has_zero_size, extents_positive, Qltb.
  intros H. apply orb_true_iff in H as [H | H]; [apply orb_true_iff in H as [H | H]|];
    apply Qeq_bool_iff in H;
    match goal with H : ?x == 0 |- _ =>
      replace (Qle_bool x 0) with true
        by (symmetry; apply Qle_bool_iff; rewrite H; apply Qle_refl) end;
    simpl; rewrite ?andb_false_r; reflexivity.
Qed.

(** Claim C1 (as amended): the script validates nothing and has no
    InvalidParameter or DegenerateGeometry path. Assume that Rhino's
    [Box.ToBrep()] returns a Brep for every box with positive sizes and
    [None] for every box with a zero size. Then, for every input, valid or
    not, the script either adds all its objects, 14 + max(shelf_count, 0)
    of them, or raises at the first box for which [ToBrep()] gives [None];
    it adds all of them whenever every box has positive sizes, and it
    raises when thickness = 0 or width = 1.5. *)
Theorem cabinet_never_rejects (to_brep_ok : Box -> bool)
  (Hpos : forall b, extents_positive b = true -> to_brep_ok b = true)
  (Hzero : forall b, has_zero_size b = true -> to_brep_ok b = false) w d h n t :
  (forall objs, run_create_parametric_cabinet to_brep_ok w d h n t = Some objs ->
     objs = create_parametric_cabinet w d h n t
     /\ List.length objs = (14 + Z.to_nat n)%nat)
  /\ (run_create_parametric_cabinet to_brep_ok w d h n t = None <->
      exists b, In b (breps (create_parametric_cabinet w d h n t)) /\ to_brep_ok b = false)
  /\ (forallb extents_positive (breps (create_parametric_cabinet w d h n t)) = true ->
      run_create_parametric_cabinet to_brep_ok w d h n t
      = Some (create_parametric_cabinet w d h n t))
  /\ (t == 0 \/ w == 3#2 -> run_create_parametric_cabinet to_brep_ok w d h n t = None).
Proof.
  unfold run_create_parametric_cabinet. rewrite add_objects_spec.
  split; [|split; [|split]].
  - intros objs. destruct (forallb to_brep_ok _); [|discriminate].
    intros E; injection E as <-. split; [reflexivity|].
    rewrite <- (length_map obj_name), cabinet_names, !length_app, length_shelf_names.
    simpl. lia.
  - rewrite <- forallb_false_exists.
    destruct (forallb to_brep_ok _); split; congruence.
  - intros Hall.
    replace (forallb to_brep_ok (breps (create_parametric_cabinet w d h n t))) with true;
      [reflexivity|].
    symmetry. apply forallb_forall. intros b Hb. apply Hpos.
    exact (proj1 (forallb_forall _ _) Hall b Hb).
  - intros Hz.
    replace (forallb to_brep_ok (breps (create_parametric_cabinet w d h n t))) with false;
      [reflexivity|].
    symmetry. apply forallb_false_exists.
    destruct Hz as [Hz | Hz].
    + exists (left_side d h t). split; [simpl; auto|]. apply Hzero.
      unfold has_zero_size. cbn [left_side xsize iv_len t0 t1].
      apply orb_true_iff; left; apply orb_true_iff; left.
      apply Qeq_bool_iff. unfold iv_len. cbn [t0 t1]. lra.
    + exists (bottom w d t). split; [simpl; auto|]. apply Hzero.
      unfold has_zero_size. cbn [bottom xsize iv_len t0 t1].
      apply orb_true_iff; left; apply orb_true_iff; left.
      apply Qeq_bool_iff. unfold iv_len, bottom_width. cbn [t0 t1]. lra.
Qed.

Lemma cabinet_never_rejects_witness :
  run_create_parametric_cabinet extents_positive 30 24 (61#2) 1 0 = None.
Proof.
  exact (proj2 (proj2 (proj2
           (cabinet_never_rejects extents_positive (fun b H => H) zero_size_not_positive
              30 24 (61#2) 1 0)))
           (or_introl (Qeq_refl 0))).
Defined.

(** Claim C1, refuted: thickness = width = 30 is invalid (thickness is not
    below half the width), yet every box has positive sizes, so the script
    adds the full list of 15 objects and raises nothing. *)
Lemma thickness_equals_width_accepted :
  spec_valid 30 24 (61#2) 1 30 = false
  /\ map obj_name (create_parametric_cabinet 30 24 (61#2) 1 30) =
       carcase_names ++ ["Shelf 1"%string] ++ front_and_hardware_names
  /\ (forall to_brep_ok : Box -> bool,
        (forall b, extents_positive b = true -> to_brep_ok b = true) ->
        run_create_parametric_cabinet to_brep_ok 30 24 (61#2) 1 30
        = Some (create_parametric_cabinet 30 24 (61#2) 1 30)).
Proof.
  split; [reflexivity|]. split; [reflexivity|].
  intros f Hpos. unfold run_create_parametric_cabinet. rewrite add_objects_spec.
  replace (forallb f (breps (create_parametric_cabinet 30 24 (61#2) 1 30))) with true;
    [reflexivity|].
  symmetry. apply forallb_forall. intros b Hb. apply Hpos.
  assert (Hall : forallb extents_positive (breps (create_parametric_cabinet 30 24 (61#2) 1 30))
                 = true) by (vm_compute; reflexivity).
  exact (proj1 (forallb_forall _ _) Hall b Hb).
Qed.

(** Claim C3: both doors are built with the same interval [0, door_width],
    and 2 * door_width + 2 * door_gap + door_gap = width, door_gap = 0.125. *)
Theorem door_widths_symmetric w d h n t :
  find_obj "Door Left" (create_parametric_cabinet w d h n t)
    = Some (BrepObj "Door Left" (left_door w h t))
  /\ find_obj "Door Right" (create_parametric_cabinet w d h n t)
    = Some (BrepObj "Door Right" (right_door w h t))
  /\ xsize (left_door w h t) = xsize (right_door w h t)
  /\ xsize (left_door w h t) = mkInterval 0 (door_width w)
  /\ door_gap == 1#8
  /\ 2 * door_width w + 2 * door_gap + door_gap == w.
Proof.
  repeat split.
  - destruct (find_obj_cabinet_front "Door Left" w d h n t) as [rest ->].
    + simpl. intuition discriminate.
    + apply not_in_shelf_names. discriminate.
    + reflexivity.
  - destruct (find_obj_cabinet_front "Door Right" w d h n t) as [rest ->].
    + simpl. intuition discriminate.
    + apply not_in_shelf_names. discriminate.
    + reflexivity.
  - unfold door_width, door_gap. field.
Qed.

(** Claim C4: for shelf_count = N >= 0 the spacing is
    (height - 1.5 - N * thickness) / (N + 1), and N + 1 gaps plus N shelf
    thicknesses fill exactly height - 1.5. *)
Theorem shelf_spacing_partition h n t (Hn : (0 <= n)%Z) :
  shelf_spacing h n t == (h - (3#2) - inject_Z n * t) / (inject_Z n + 1)
  /\ (inject_Z n + 1) * shelf_spacing h n t + inject_Z n * t == h - (3#2).
Proof.
  assert (Hq : 0 <= inject_Z n) by (change 0 with (inject_Z 0); rewrite <- Zle_Qle; exact Hn).
  split.
  - reflexivity.
  - unfold shelf_spacing, available_height. field. lra.
Qed.

Lemma shelf_spacing_partition_witness :
  (0 <= 1)%Z
  /\ (inject_Z 1 + 1) * shelf_spacing (61#2) 1 (3#4) + inject_Z 1 * (3#4) == (61#2) - (3#2).
Proof.
  split; [lia|]. apply (shelf_spacing_partition (61#2) 1 (3#4)). lia.
Defined.

(** ** Hinge points *)

Definition point_z (o : Obj) : Q :=
  match o with BrepObj _ b => pz (origin (bplane b)) | PointObj _ p => pz p end.

Definition has_prefix (p : string) (o : Obj) : bool := String.prefix p (obj_name o).

Definition hinge_points (l : list Obj) : list Obj := filter (has_prefix "Hinge ") l.

Lemma filter_shelves_none p w d h n t :
  (forall s, has_prefix p (BrepObj (String.append "Shelf " s) (shelf w d h n t 0)) = false) ->
  filter (has_prefix p) (shelves w d h n t) = [].
Proof.
  intros Hp. unfold shelves. destruct (Z.ltb 0 n); [|reflexivity].
  generalize 0%nat. induction (Z.to_nat n) as [|m IH]; intros s; [reflexivity|].
  simpl. rewrite IH. specialize (Hp (nat_to_string (S s))).
  unfold has_prefix in *. simpl in *. rewrite Hp. reflexivity.
Qed.

Lemma hinge_points_z w d h n t :
  map point_z (hinge_points (create_parametric_cabinet w d h n t)) =
  hinge_z_positions h ++ hinge_z_positions h.
Proof.
  unfold hinge_points, create_parametric_cabinet.
  rewrite !filter_app, filter_shelves_none by reflexivity.
  reflexivity.
Qed.

(** Claim C5 (as amended): the four hinge points sit at z = 3.0 and
    z = height - 3.0 (twice each), and these lie strictly inside
    (0, height) exactly when height > 3; no other parameter matters. *)
Theorem hinge_heights_inside_iff w d h n t :
  map point_z (hinge_points (create_parametric_cabinet w d h n t)) = [3; h - 3; 3; h - 3]
  /\ ((forall z, In z (map point_z (hinge_points (create_parametric_cabinet w d h n t))) ->
                 0 < z /\ z < h)
      <-> 3 < h).
Proof.
  rewrite hinge_points_z. split; [reflexivity|]. split.
  - intros H. destruct (H 3) as [_ H3]; [simpl; auto|]. exact H3.
  - intros H z Hz. simpl in Hz.
    destruct Hz as [<-|[<-|[<-|[<-|[]]]]]; split; lra.
Qed.

(** Claim C5, refuted: height = 3 is valid (every size and the shelf
    spacing are positive, thickness 0.75 < 1.5), but the hinge at 3.0 is at
    the top edge and the one at height - 3.0 at the bottom edge. *)
Lemma low_cabinet_hinges_on_edges :
  spec_valid 30 24 3 1 (3#4) = true
  /\ In (PointObj "Hinge Left 1" (mkPoint (3#4) (146#100) 3))
        (create_parametric_cabinet 30 24 3 1 (3#4))
  /\ In (PointObj "Hinge Left 2" (mkPoint (3#4) (146#100) (3 - 3)))
        (create_parametric_cabinet 30 24 3 1 (3#4))
  /\ ~ (3 < 3)
  /\ ~ (0 < 3 - 3).
Proof.
  split; [reflexivity|]. split; [simpl; tauto|]. split; [simpl; tauto|].
  split; intros H; inversion H.
Qed.

(** ** Shelf positions *)

Definition Qnat (i : nat) : Q := inject_Z (Z.of_nat i).

Lemma Qnat_S i : Qnat (S i) == Qnat i + 1.
Proof. unfold Qnat. rewrite Nat2Z.inj_succ, <- Z.add_1_r, inject_Z_plus. reflexivity. Qed.

Lemma Qnat_nonneg i : 0 <= Qnat i.
Proof. unfold Qnat. change 0 with (inject_Z 0). rewrite <- Zle_Qle. lia. Qed.

Lemma shelf_spacing_fill h n t :
  (0 <= n)%Z -> (inject_Z n + 1) * shelf_spacing h n t + inject_Z n * t == h - (3#2).
Proof.
  intros Hn.
  assert (Hq : 0 <= inject_Z n) by (change 0 with (inject_Z 0); rewrite <- Zle_Qle; exact Hn).
  unfold shelf_spacing, available_height. field. lra.
Qed.

Lemma shelves_z w d h n t :
  map point_z (shelves w d h n t) = map (z_pos h n t) (seq 0 (Z.to_nat n)).
Proof.
  unfold shelves. destruct (Z.ltb_spec 0 n) as [Hn | Hn].
  - rewrite map_map. reflexivity.
  - rewrite (Z_to_nat_nonpos n Hn). reflexivity.
Qed.

Lemma nth_shelves_z w d h n t i :
  (i < Z.to_nat n)%nat -> nth i (map point_z (shelves w d h n t)) 0 = z_pos h n t i.
Proof.
  intros Hi. rewrite shelves_z.
  rewrite nth_indep with (d' := z_pos h n t 0) by (rewrite length_map, length_seq; exact Hi).
  rewrite map_nth, seq_nth by exact Hi. reflexivity.
Qed.

Lemma z_pos_S h n t i :
  z_pos h n t (S i) == z_pos h n t i + shelf_spacing h n t + t.
Proof.
  unfold z_pos. fold (Qnat (S i)). fold (Qnat i). rewrite Qnat_S. ring.
Qed.

Lemma z_pos_0 h n t : z_pos h n t 0 == t + shelf_spacing h n t.
Proof. unfold z_pos. change (inject_Z (Z.of_nat 0)) with 0. ring. Qed.

Lemma z_pos_eq h n t i :
  z_pos h n t i == t + (Qnat i + 1) * shelf_spacing h n t + Qnat i * t.
Proof. reflexivity. Qed.

(** Claim C6: with thickness > 0, shelf_count = N >= 0 and a positive
    shelf spacing, the N shelves sit at z_i = thickness + i * spacing
    + (i - 1) * thickness (i = 1..N); the positions increase strictly, the
    first is above 0, the last below height, and every gap between
    consecutive shelves, less the shelf thickness, equals the spacing. *)
Theorem shelf_positions w d h n t
  (Ht : 0 < t) (Hn : (0 <= n)%Z) (Hs : 0 < shelf_spacing h n t) :
  let zs := map point_z (shelves w d h n t) in
  List.length zs = Z.to_nat n
  /\ (forall i, (i < List.length zs)%nat ->
        nth i zs 0 == t + Qnat (S i) * shelf_spacing h n t + Qnat i * t)
  /\ (forall i, (S i < List.length zs)%nat ->
        nth i zs 0 < nth (S i) zs 0
        /\ nth (S i) zs 0 - (nth i zs 0 + t) == shelf_spacing h n t)
  /\ ((0 < List.length zs)%nat ->
        0 < nth 0 zs 0 /\ nth (pred (List.length zs)) zs 0 < h).
Proof.
  intros zs.
  assert (Hlen : List.length zs = Z.to_nat n)
    by (unfold zs; rewrite shelves_z, length_map, length_seq; reflexivity).
  split; [exact Hlen|]. rewrite Hlen. split; [|split].
  - intros i Hi. unfold zs. rewrite nth_shelves_z by exact Hi.
    rewrite z_pos_eq, Qnat_S. reflexivity.
  - intros i Hi. unfold zs.
    rewrite !nth_shelves_z by lia.
    pose proof (z_pos_S h n t i). split; lra.
  - intros H0. unfold zs. rewrite !nth_shelves_z by lia.
    pose proof (z_pos_0 h n t). split; [lra|].
    destruct (Z.to_nat n) as [|i] eqn:Em; [lia|]. simpl pred.
    pose proof (shelf_spacing_fill h n t Hn) as Hfill.
    assert (En : inject_Z n == Qnat i + 1).
    { rewrite <- Qnat_S. unfold Qnat. rewrite <- Em, Z2Nat.id by exact Hn. reflexivity. }
    rewrite En in Hfill. rewrite z_pos_eq.
    pose proof (Qnat_nonneg i). nra.
Qed.

Lemma shelf_positions_witness :
  0 < 3#4 /\ (0 <= 2)%Z /\ 0 < shelf_spacing (61#2) 2 (3#4)
  /\ nth 0 (map point_z (shelves 30 24 (61#2) 2 (3#4))) 0
     < nth 1 (map point_z (shelves 30 24 (61#2) 2 (3#4))) 0.
Proof.
  assert (Ht : 0 < 3#4) by reflexivity.
  assert (Hn : (0 <= 2)%Z) by lia.
  assert (Hs : 0 < shelf_spacing (61#2) 2 (3#4)) by reflexivity.
  split; [exact Ht|]. split; [exact Hn|]. split; [exact Hs|].
  destruct (shelf_positions 30 24 (61#2) 2 (3#4) Ht Hn Hs) as [_ [_ [Hinc _]]].
  apply (Hinc 0%nat). vm_compute. lia.
Defined.

(** ** Bottom panel *)

(** Size along the local X axis of the Brep named [nm] (0 if absent). *)
Definition panel_xsize (nm : string) (l : list Obj) : Q :=
  match find_obj nm l with Some (BrepObj _ b) => iv_len (xsize b) | _ => 0 end.

Lemma bottom_found w d h n t :
  find_obj "Bottom" (create_parametric_cabinet w d h n t) = Some (BrepObj "Bottom" (bottom w d t)).
Proof. reflexivity. Qed.

Lemma bottom_xsize w d h n t :
  panel_xsize "Bottom" (create_parametric_cabinet w d h n t) == w - (3#2).
Proof.
  unfold panel_xsize. rewrite bottom_found. unfold iv_len, bottom, bottom_width. simpl. ring.
Qed.

(** Claim C7 (as amended): the bottom panel is width - 1.5 wide for every
    input, so bottom width + 2 * thickness = width - (1.5 - 2 * thickness):
    the margin depends on the thickness (it is 0 at thickness 0.75). *)
Theorem bottom_margin_depends_on_thickness w d h n t :
  panel_xsize "Bottom" (create_parametric_cabinet w d h n t) == w - (3#2)
  /\ panel_xsize "Bottom" (create_parametric_cabinet w d h n t) + 2 * t == w - ((3#2) - 2 * t).
Proof.
  pose proof (bottom_xsize w d h n t). split; lra.
Qed.

(** Claim C7, refuted: no margin m fits every valid input; at thickness
    0.75 the margin is 0 and at thickness 0.5 it is 0.5. *)
Lemma bottom_margin_not_fixed :
  ~ (exists m, forall w d h n t, spec_valid w d h n t = true ->
       panel_xsize "Bottom" (create_parametric_cabinet w d h n t) + 2 * t == w - m).
Proof.
  intros [m Hm].
  pose proof (Hm 30 24 (61#2) 1%Z (3#4) eq_refl) as H1.
  pose proof (Hm 30 24 (61#2) 1%Z (1#2) eq_refl) as H2.
  rewrite bottom_xsize in H1, H2. lra.
Qed.

(** ** The default cabinet *)

Fixpoint points (l : list Obj) : list Point3d :=
  match l with
  | [] => []
  | PointObj _ p :: l' => p :: points l'
  | BrepObj _ _ :: l' => points l'
  end.

Definition count_prefix (p : string) (l : list Obj) : nat :=
  List.length (filter (has_prefix p) l).

(** Claim C8 (as amended): at width 30, depth 24, height 30.5, one shelf
    and thickness 0.75: side width 23.125, back width 29, bottom width 28.5,
    bottom depth 22.0625, door width 14.8125, door height 30.375; one shelf,
    eight other panels, four hinge and two pull points, 15 objects. *)
Theorem default_cabinet_dimensions :
  let l := create_parametric_cabinet 30 24 (61#2) 1 (3#4) in
  side_width 24 == 185#8 /\ back_width 30 == 29 /\ bottom_width 30 == 57#2
  /\ bottom_depth 24 == 353#16 /\ door_width 30 == 237#16 /\ door_height (61#2) == 243#8
  /\ count_prefix "Shelf " l = 1%nat
  /\ List.length (breps l) = 9%nat
  /\ count_prefix "Hinge " l = 4%nat
  /\ count_prefix "Pull " l = 2%nat
  /\ List.length (points l) = 6%nat
  /\ List.length l = 15%nat.
Proof. vm_compute. repeat split; reflexivity. Qed.

(** Claim C8, refuted: the bottom depth at this input is
    24 - 0.875 - 1 - 0.0625 = 22.0625, which is not 22.0 to the one decimal
    the claim gives. *)
Lemma default_bottom_depth_not_22 :
  bottom_depth 24 == 353#16 /\ (1#20) <= bottom_depth 24 - 22.
Proof. split; [reflexivity | discriminate]. Qed.

(** ** Overlap of nominal boxes *)

Lemma world_iv_bounds b k a1 a2 a3 :
  In a1 [t0 (xsize b); t1 (xsize b)] -> In a2 [t0 (ysize b); t1 (ysize b)] ->
  In a3 [t0 (zsize b); t1 (zsize b)] ->
  let pl := bplane b in
  let e := coord k (origin pl) + coord k (xdir pl) * a1 + coord k (ydir pl) * a2
           + coord k (zdir pl) * a3 in
  fst (world_iv b k) <= e /\ e <= snd (world_iv b k).
Proof.
  intros H1 H2 H3 pl e. unfold e, world_iv, scale_iv. cbn [fst snd].
  simpl in H1, H2, H3.
  destruct H1 as [<-|[<-|[]]]; destruct H2 as [<-|[<-|[]]]; destruct H3 as [<-|[<-|[]]];
  fold pl;
  repeat match goal with
  | |- context [Qmin ?x ?y] =>
      let m := fresh "m" in
      pose proof (Q.le_min_l x y); pose proof (Q.le_min_r x y);
      set (m := Qmin x y) in *
  | |- context [Qmax ?x ?y] =>
      let m := fresh "m" in
      pose proof (Q.le_max_l x y); pose proof (Q.le_max_r x y);
      set (m := Qmax x y) in *
  end; split; lra.
Qed.

Ltac box_bounds b k :=
  let tac := (simpl; tauto) in
  pose proof (world_iv_bounds b k (t0 (xsize b)) (t0 (ysize b)) (t0 (zsize b)) ltac:(tac) ltac:(tac) ltac:(tac));
  pose proof (world_iv_bounds b k (t0 (xsize b)) (t0 (ysize b)) (t1 (zsize b)) ltac:(tac) ltac:(tac) ltac:(tac));
  pose proof (world_iv_bounds b k (t0 (xsize b)) (t1 (ysize b)) (t0 (zsize b)) ltac:(tac) ltac:(tac) ltac:(tac));
  pose proof (world_iv_bounds b k (t0 (xsize b)) (t1 (ysize b)) (t1 (zsize b)) ltac:(tac) ltac:(tac) ltac:(tac));
  pose proof (world_iv_bounds b k (t1 (xsize b)) (t0 (ysize b)) (t0 (zsize b)) ltac:(tac) ltac:(tac) ltac:(tac));
  pose proof (world_iv_bounds b k (t1 (xsize b)) (t0 (ysize b)) (t1 (zsize b)) ltac:(tac) ltac:(tac) ltac:(tac));
  pose proof (world_iv_bounds b k (t1 (xsize b)) (t1 (ysize b)) (t0 (zsize b)) ltac:(tac) ltac:(tac) ltac:(tac));
  pose proof (world_iv_bounds b k (t1 (xsize b)) (t1 (ysize b)) (t1 (zsize b)) ltac:(tac) ltac:(tac) ltac:(tac)).

Ltac unfold_boxes :=
  cbn [coord bplane origin xdir ydir zdir cross px py pz XAxis YAxis ZAxis
       xsize ysize zsize t0 t1 back left_side right_side] in *;
  unfold side_width, back_width, back_thickness in *.

Lemma back_overlaps_left_side w d h t :
  (1#2) < t -> (1#2) < w -> (11#8) < d -> 0 < h ->
  overlap (back w d h) (left_side d h t).
Proof.
  intros Ht Hw Hd Hh k Hk.
  destruct k as [|[|[|k]]]; [| | |lia];
    match goal with |- fst (world_iv _ ?k) < _ /\ _ =>
      box_bounds (back w d h) k; box_bounds (left_side d h t) k end;
    unfold_boxes; split; lra.
Qed.

Lemma back_overlaps_right_side w d h t :
  (1#2) < t -> (1#2) < w -> (11#8) < d -> 0 < h ->
  overlap (back w d h) (right_side w d h t).
Proof.
  intros Ht Hw Hd Hh k Hk.
  destruct k as [|[|[|k]]]; [| | |lia];
    match goal with |- fst (world_iv _ ?k) < _ /\ _ =>
      box_bounds (back w d h) k; box_bounds (right_side w d h t) k end;
    unfold_boxes; split; lra.
Qed.

Lemma back_nonempty w d h : 1 < w -> 0 < h -> box_nonempty (back w d h).
Proof.
  intros Hw Hh k Hk.
  destruct k as [|[|[|k]]]; [| | |lia];
    match goal with |- fst (world_iv _ ?k) < _ => box_bounds (back w d h) k end;
    unfold_boxes; lra.
Qed.

Lemma left_side_nonempty d h t : 0 < t -> (7#8) < d -> 0 < h -> box_nonempty (left_side d h t).
Proof.
  intros Ht Hd Hh k Hk.
  destruct k as [|[|[|k]]]; [| | |lia];
    match goal with |- fst (world_iv _ ?k) < _ => box_bounds (left_side d h t) k end;
    unfold_boxes; lra.
Qed.

Lemma right_side_nonempty w d h t :
  0 < t -> (7#8) < d -> 0 < h -> box_nonempty (right_side w d h t).
Proof.
  intros Ht Hd Hh k Hk.
  destruct k as [|[|[|k]]]; [| | |lia];
    match goal with |- fst (world_iv _ ?k) < _ => box_bounds (right_side w d h t) k end;
    unfold_boxes; lra.
Qed.

(** Claim C2 (as amended): the nominal boxes are not pairwise disjoint.
    The back panel is let into grooves of the sides: it spans x from 0.5 to
    width - 0.5 while the sides span [0, thickness] and
    [width - thickness, width]. So whenever thickness > 0.5, width > 1,
    depth > 1.375 and height > 0, the back, the left side and the right
    side are non-empty boxes and the back's box overlaps the box of each
    side panel (their interiors intersect). *)
Theorem back_in_side_grooves w d h n t
  (Ht : (1#2) < t) (Hw : 1 < w) (Hd : (11#8) < d) (Hh : 0 < h) :
  nth_error (breps (create_parametric_cabinet w d h n t)) 0 = Some (left_side d h t)
  /\ nth_error (breps (create_parametric_cabinet w d h n t)) 1 = Some (right_side w d h t)
  /\ nth_error (breps (create_parametric_cabinet w d h n t)) 2 = Some (back w d h)
  /\ box_nonempty (back w d h)
  /\ box_nonempty (left_side d h t)
  /\ box_nonempty (right_side w d h t)
  /\ overlap (back w d h) (left_side d h t)
  /\ overlap (back w d h) (right_side w d h t)
  /\ ~ pairwise_disjoint (create_parametric_cabinet w d h n t).
Proof.
  assert (Hw' : (1#2) < w) by lra.
  assert (Ht' : 0 < t) by lra. assert (Hd' : (7#8) < d) by lra.
  pose proof (back_overlaps_left_side w d h t Ht Hw' Hd Hh) as HL.
  pose proof (back_overlaps_right_side w d h t Ht Hw' Hd Hh) as HR.
  split; [reflexivity|]. split; [reflexivity|]. split; [reflexivity|].
  split; [exact (back_nonempty w d h Hw Hh)|].
  split; [exact (left_side_nonempty d h t Ht' Hd' Hh)|].
  split; [exact (right_side_nonempty w d h t Ht' Hd' Hh)|].
  split; [exact HL|]. split; [exact HR|].
  intros Hdis. apply (Hdis 2%nat 0%nat (back w d h) (left_side d h t));
    [discriminate | reflexivity | reflexivity | exact HL].
Qed.

Lemma back_in_side_grooves_witness :
  (1#2) < 3#4 /\ 1 < 30 /\ (11#8) < 24 /\ 0 < 61#2
  /\ ~ pairwise_disjoint (create_parametric_cabinet 30 24 (61#2) 1 (3#4)).
Proof.
  assert (H1 : (1#2) < 3#4) by reflexivity. assert (H2 : 1 < 30) by reflexivity.
  assert (H3 : (11#8) < 24) by reflexivity. assert (H4 : 0 < 61#2) by reflexivity.
  split; [exact H1|]. split; [exact H2|]. split; [exact H3|]. split; [exact H4|].
  destruct (back_in_side_grooves 30 24 (61#2) 1 (3#4) H1 H2 H3 H4)
    as (_ & _ & _ & _ & _ & _ & _ & _ & H).
  exact H.
Defined.

(** Claim C2, refuted: at the default input, which is valid, the boxes of
    "Side Left" and "Back" overlap. *)
Lemma default_side_and_back_overlap :
  spec_valid 30 24 (61#2) 1 (3#4) = true
  /\ ~ pairwise_disjoint (create_parametric_cabinet 30 24 (61#2) 1 (3#4)).
Proof.
  split; [reflexivity|]. intros Hdis.
  apply (Hdis 0%nat 2%nat (left_side 24 (61#2) (3#4)) (back 30 24 (61#2)));
    [discriminate | reflexivity | reflexivity |].
  intros k Hk. destruct k as [|[|[|k]]]; [| | |lia]; vm_compute; split; reflexivity.
Qed.

(** ** Further properties of the cabinet geometry *)

Definition lo (b : Box) (k : nat) : Q := fst (world_iv b k).
Definition hi (b : Box) (k : nat) : Q := snd (world_iv b k).

(** Replace every [Qmin]/[Qmax] of the goal by a variable with its two
    possible values. *)
Ltac qminmax :=
  repeat match goal with
  | |- context [Qmin ?x ?y] =>
      let m := fresh "m" in let Hs := fresh "Hs" in
      pose proof (Q.min_spec x y) as Hs; set (m := Qmin x y) in *;
      destruct Hs as [[? ?]|[? ?]]
  | |- context [Qmax ?x ?y] =>
      let m := fresh "m" in let Hs := fresh "Hs" in
      pose proof (Q.max_spec x y) as Hs; set (m := Qmax x y) in *;
      destruct Hs as [[? ?]|[? ?]]
  end.

(** [x / 2] as the linear term [x * (1#2)]. *)
Ltac halves := unfold Qdiv in *; change (Qinv 2) with (1#2) in *.

Ltac world_unfold :=
  unfold lo, hi, world_iv, scale_iv;
  cbn [fst snd coord zdir cross xdir ydir origin bplane xsize ysize zsize t0 t1
       px py pz XAxis YAxis ZAxis].

(** A box on the plane (XAxis, YAxis) with sizes [0, a], [0, b], [0, c]
    covers [ox, ox + a] x [oy, oy + b] x [oz, oz + c]. *)
Lemma world_iv_XY o a b c :
  0 <= a -> 0 <= b -> 0 <= c ->
  let bx := mkBox (mkPlane o XAxis YAxis) (mkInterval 0 a) (mkInterval 0 b) (mkInterval 0 c) in
  lo bx 0 == px o /\ hi bx 0 == px o + a /\ lo bx 1 == py o /\ hi bx 1 == py o + b
  /\ lo bx 2 == pz o /\ hi bx 2 == pz o + c.
Proof.
  intros Ha Hb Hc bx. unfold bx.
  repeat split; world_unfold; qminmax; lra.
Qed.

(** A box on the plane (XAxis, ZAxis), whose normal is -YAxis, with sizes
    [0, a], [0, b], [0, c] covers [ox, ox + a] x [oy - c, oy] x [oz, oz + b]. *)
Lemma world_iv_XZ o a b c :
  0 <= a -> 0 <= b -> 0 <= c ->
  let bx := mkBox (mkPlane o XAxis ZAxis) (mkInterval 0 a) (mkInterval 0 b) (mkInterval 0 c) in
  lo bx 0 == px o /\ hi bx 0 == px o + a /\ lo bx 1 == py o - c /\ hi bx 1 == py o
  /\ lo bx 2 == pz o /\ hi bx 2 == pz o + b.
Proof.
  intros Ha Hb Hc bx. unfold bx.
  repeat split; world_unfold; qminmax; lra.
Qed.

Lemma left_door_extent w h t :
  (3#8) <= w -> 0 <= t -> (1#8) <= h ->
  lo (left_door w h t) 0 == 1#16 /\ hi (left_door w h t) 0 == w / 2 - (1#8)
  /\ lo (left_door w h t) 1 == -(7#8) /\ hi (left_door w h t) 1 == -(7#8) + t
  /\ lo (left_door w h t) 2 == 0 /\ hi (left_door w h t) 2 == h - (1#8).
Proof.
  intros Hw Ht Hh.
  assert (Hdw : 0 <= door_width w) by (unfold door_width, door_gap; halves; lra).
  assert (Hdh : 0 <= door_height h) by (unfold door_height, top_gap, bottom_gap; lra).
  destruct (world_iv_XY (mkPoint (door_gap / 2) (-(7#8)) bottom_gap) _ _ _ Hdw Ht Hdh)
    as (H1 & H2 & H3 & H4 & H5 & H6).
  unfold left_door. cbn [px py pz] in *.
  unfold door_width, door_height, door_gap, top_gap, bottom_gap in *.
  halves. repeat split; lra.
Qed.

Lemma right_door_extent w h t :
  (3#8) <= w -> 0 <= t -> (1#8) <= h ->
  lo (right_door w h t) 0 == w / 2 + (1#16) /\ hi (right_door w h t) 0 == w - (1#8)
  /\ lo (right_door w h t) 1 == -(7#8) /\ hi (right_door w h t) 1 == -(7#8) + t
  /\ lo (right_door w h t) 2 == 0 /\ hi (right_door w h t) 2 == h - (1#8).
Proof.
  intros Hw Ht Hh.
  assert (Hdw : 0 <= door_width w) by (unfold door_width, door_gap; halves; lra).
  assert (Hdh : 0 <= door_height h) by (unfold door_height, top_gap, bottom_gap; lra).
  destruct (world_iv_XY (mkPoint (w / 2 + door_gap / 2) (-(7#8)) bottom_gap) _ _ _ Hdw Ht Hdh)
    as (H1 & H2 & H3 & H4 & H5 & H6).
  unfold right_door. cbn [px py pz] in *.
  unfold door_width, door_height, door_gap, top_gap, bottom_gap in *.
  halves. repeat split; lra.
Qed.

(** The two doors never overlap, but their layout is not symmetric about
    width / 2: the left door spans [1/16, width/2 - 1/8], the right door
    [width/2 + 1/16, width - 1/8], so the reveals are 1/16 at the left edge,
    1/8 at the right edge and 3/16 between the doors. *)
Theorem doors_layout w h t (Hw : (3#8) <= w) (Ht : 0 <= t) (Hh : (1#8) <= h) :
  lo (left_door w h t) 0 == 1#16
  /\ hi (left_door w h t) 0 == w / 2 - (1#8)
  /\ lo (right_door w h t) 0 == w / 2 + (1#16)
  /\ hi (right_door w h t) 0 == w - (1#8)
  /\ lo (right_door w h t) 0 - hi (left_door w h t) 0 == 3#16
  /\ ~ overlap (left_door w h t) (right_door w h t).
Proof.
  destruct (left_door_extent w h t Hw Ht Hh) as (L1 & L2 & _).
  destruct (right_door_extent w h t Hw Ht Hh) as (R1 & R2 & _).
  halves. repeat split; try lra.
  intros Hov. destruct (Hov 0%nat ltac:(lia)) as [_ H].
  fold (lo (right_door w h t) 0) (hi (left_door w h t) 0) in H. lra.
Qed.

Lemma doors_layout_witness :
  (3#8) <= 30 /\ 0 <= 3#4 /\ (1#8) <= 61#2
  /\ ~ overlap (left_door 30 (61#2) (3#4)) (right_door 30 (61#2) (3#4)).
Proof.
  assert (H1 : (3#8) <= 30) by discriminate. assert (H2 : 0 <= 3#4) by discriminate.
  assert (H3 : (1#8) <= 61#2) by discriminate.
  split; [exact H1|]. split; [exact H2|]. split; [exact H3|].
  destruct (doors_layout 30 (61#2) (3#4) H1 H2 H3) as (_ & _ & _ & _ & _ & H). exact H.
Defined.



Lemma left_side_extent d h t :
  0 <= t -> (7#8) <= d -> 0 <= h ->
  lo (left_side d h t) 0 == 0 /\ hi (left_side d h t) 0 == t
  /\ lo (left_side d h t) 1 == 0 /\ hi (left_side d h t) 1 == d - (7#8)
  /\ lo (left_side d h t) 2 == 0 /\ hi (left_side d h t) 2 == h.
Proof.
  intros Ht Hd Hh.
  assert (Hs : 0 <= side_width d) by (unfold side_width; lra).
  destruct (world_iv_XY (mkPoint 0 0 0) _ _ _ Ht Hs Hh) as (H1 & H2 & H3 & H4 & H5 & H6).
  unfold left_side. cbn [px py pz] in *. unfold side_width in *. repeat split; lra.
Qed.

Lemma right_side_extent w d h t :
  0 <= t -> (7#8) <= d -> 0 <= h ->
  lo (right_side w d h t) 0 == w - t /\ hi (right_side w d h t) 0 == w
  /\ lo (right_side w d h t) 1 == 0 /\ hi (right_side w d h t) 1 == d - (7#8)
  /\ lo (right_side w d h t) 2 == 0 /\ hi (right_side w d h t) 2 == h.
Proof.
  intros Ht Hd Hh.
  assert (Hs : 0 <= side_width d) by (unfold side_width; lra).
  destruct (world_iv_XY (mkPoint (w - t) 0 0) _ _ _ Ht Hs Hh) as (H1 & H2 & H3 & H4 & H5 & H6).
  unfold right_side. cbn [px py pz] in *. unfold side_width in *. repeat split; lra.
Qed.

(** The doors are set 7/8 in front of the carcase: each door's box overlaps
    the side panel behind it exactly when thickness > 7/8. *)
Theorem doors_clear_sides_iff w d h t
  (Hw : (3#8) <= w) (Ht : 0 < t) (Hd : (7#8) < d) (Hh : (1#8) < h) :
  (overlap (left_door w h t) (left_side d h t) <-> 7#8 < t)
  /\ (overlap (right_door w h t) (right_side w d h t) <-> 7#8 < t).
Proof.
  destruct (left_door_extent w h t Hw ltac:(lra) ltac:(lra)) as (L1 & L2 & L3 & L4 & L5 & L6).
  destruct (right_door_extent w h t Hw ltac:(lra) ltac:(lra)) as (R1 & R2 & R3 & R4 & R5 & R6).
  destruct (left_side_extent d h t ltac:(lra) ltac:(lra) ltac:(lra)) as (S1 & S2 & S3 & S4 & S5 & S6).
  destruct (right_side_extent w d h t ltac:(lra) ltac:(lra) ltac:(lra)) as (T1 & T2 & T3 & T4 & T5 & T6).
  halves.
  split; split.
  - intros Hov. destruct (Hov 1%nat ltac:(lia)) as [_ H].
    fold (lo (left_side d h t) 1) (hi (left_door w h t) 1) in H. lra.
  - intros Hgt k Hk. destruct k as [|[|[|k]]]; [| | |lia];
      unfold lo, hi in *; split; lra.
  - intros Hov. destruct (Hov 1%nat ltac:(lia)) as [_ H].
    fold (lo (right_side w d h t) 1) (hi (right_door w h t) 1) in H. lra.
  - intros Hgt k Hk. destruct k as [|[|[|k]]]; [| | |lia];
      unfold lo, hi in *; split; lra.
Qed.

Lemma doors_clear_sides_iff_witness :
  (3#8) <= 30 /\ 0 < 1 /\ (7#8) < 24 /\ (1#8) < 61#2
  /\ overlap (left_door 30 (61#2) 1) (left_side 24 (61#2) 1).
Proof.
  assert (H1 : (3#8) <= 30) by discriminate. assert (H2 : 0 < 1) by reflexivity.
  assert (H3 : (7#8) < 24) by reflexivity. assert (H4 : (1#8) < 61#2) by reflexivity.
  split; [exact H1|]. split; [exact H2|]. split; [exact H3|]. split; [exact H4|].
  destruct (doors_clear_sides_iff 30 24 (61#2) 1 H1 H2 H3 H4) as [[_ H] _].
  apply H. reflexivity.
Defined.

Lemma bottom_extent w d t :
  0 <= t -> (3#2) <= w -> (31#16) <= d ->
  lo (bottom w d t) 0 == t /\ hi (bottom w d t) 0 == t + w - (3#2)
  /\ lo (bottom w d t) 1 == 1#16 /\ hi (bottom w d t) 1 == d - (15#8)
  /\ lo (bottom w d t) 2 == 0 /\ hi (bottom w d t) 2 == t.
Proof.
  intros Ht Hw Hd.
  assert (Hbw : 0 <= bottom_width w) by (unfold bottom_width; lra).
  assert (Hbd : 0 <= bottom_depth d) by (unfold bottom_depth, side_width; lra).
  destruct (world_iv_XY (mkPoint t (1#16) 0) _ _ _ Hbw Hbd Ht) as (H1 & H2 & H3 & H4 & H5 & H6).
  unfold bottom. cbn [px py pz] in *. unfold bottom_width, bottom_depth, side_width in *.
  repeat split; lra.
Qed.

(** The bottom panel starts at x = thickness and is width - 1.5 wide: it
    never overlaps the left side, and it overlaps the right side exactly
    when thickness > 0.75. *)
Theorem bottom_fits_between_sides_iff w d h t
  (Ht : 0 < t) (Hwt : 2 * t < w) (Hw : (3#2) < w) (Hd : (31#16) < d) (Hh : 0 < h) :
  ~ overlap (bottom w d t) (left_side d h t)
  /\ (overlap (bottom w d t) (right_side w d h t) <-> 3#4 < t).
Proof.
  destruct (bottom_extent w d t ltac:(lra) ltac:(lra) ltac:(lra)) as (B1 & B2 & B3 & B4 & B5 & B6).
  destruct (left_side_extent d h t ltac:(lra) ltac:(lra) ltac:(lra)) as (S1 & S2 & S3 & S4 & S5 & S6).
  destruct (right_side_extent w d h t ltac:(lra) ltac:(lra) ltac:(lra)) as (T1 & T2 & T3 & T4 & T5 & T6).
  split; [|split].
  - intros Hov. destruct (Hov 0%nat ltac:(lia)) as [H _].
    fold (lo (bottom w d t) 0) (hi (left_side d h t) 0) in H. lra.
  - intros Hov. destruct (Hov 0%nat ltac:(lia)) as [_ H].
    fold (lo (right_side w d h t) 0) (hi (bottom w d t) 0) in H. lra.
  - intros Hgt k Hk. destruct k as [|[|[|k]]]; [| | |lia];
      unfold lo, hi in *; split; lra.
Qed.

Lemma bottom_fits_between_sides_iff_witness :
  0 < 1 /\ 2 * 1 < 30 /\ (3#2) < 30 /\ (31#16) < 24 /\ 0 < 61#2
  /\ overlap (bottom 30 24 1) (right_side 30 24 (61#2) 1).
Proof.
  assert (H1 : 0 < 1) by reflexivity. assert (H2 : 2 * 1 < 30) by reflexivity.
  assert (H3 : (3#2) < 30) by reflexivity. assert (H4 : (31#16) < 24) by reflexivity.
  assert (H5 : 0 < 61#2) by reflexivity.
  split; [exact H1|]. split; [exact H2|]. split; [exact H3|]. split; [exact H4|].
  split; [exact H5|].
  destruct (bottom_fits_between_sides_iff 30 24 (61#2) 1 H1 H2 H3 H4 H5) as [_ [_ Hiff]].
  apply Hiff. reflexivity.
Defined.

(** The back panel is built on the plane (XAxis, ZAxis), whose normal is
    -YAxis, with its 0.5 thickness along the plane's Y (world Z) and the
    cabinet height along the normal: it lies flat, z in [0, 0.5], with y
    from side_width - 0.5 - height to side_width - 0.5, reaching in front of
    the carcase (y < 0) as soon as height > depth - 11/8. *)
Theorem back_lies_flat w d h (Hw : 1 <= w) (Hh : 0 <= h) :
  lo (back w d h) 0 == 1#2 /\ hi (back w d h) 0 == w - (1#2)
  /\ lo (back w d h) 1 == d - (11#8) - h /\ hi (back w d h) 1 == d - (11#8)
  /\ lo (back w d h) 2 == 0 /\ hi (back w d h) 2 == 1#2
  /\ (d - (11#8) < h -> lo (back w d h) 1 < 0).
Proof.
  assert (Hbw : 0 <= back_width w) by (unfold back_width; lra).
  assert (Hbt : 0 <= back_thickness) by discriminate.
  destruct (world_iv_XZ (mkPoint (1#2) (side_width d - 1 + back_thickness) 0) _ _ _ Hbw Hbt Hh)
    as (H1 & H2 & H3 & H4 & H5 & H6).
  unfold back. cbn [px py pz] in *. unfold back_width, back_thickness, side_width in *.
  repeat split; intros; lra.
Qed.

Lemma back_lies_flat_witness :
  1 <= 30 /\ 0 <= 61#2 /\ lo (back 30 24 (61#2)) 1 < 0.
Proof.
  assert (H1 : 1 <= 30) by discriminate. assert (H2 : 0 <= 61#2) by discriminate.
  split; [exact H1|]. split; [exact H2|].
  destruct (back_lies_flat 30 24 (61#2) H1 H2) as (_ & _ & _ & _ & _ & _ & H).
  apply H. reflexivity.
Defined.

(** With N > 0 shelves, the top face of the top shelf is at
    height - 1.5 - spacing + thickness; it stays at or below the underside of
    the stretchers (height - 4) exactly when spacing >= thickness + 2.5. *)
Theorem top_shelf_below_stretchers w d h n t (Hn : (0 < n)%Z) :
  let top := pz (origin (bplane (shelf w d h n t (pred (Z.to_nat n))))) + t in
  top == h - (3#2) - shelf_spacing h n t + t
  /\ pz (origin (bplane (front_stretcher w h t))) == h - 4
  /\ pz (origin (bplane (back_stretcher w d h t))) == h - 4
  /\ (top <= pz (origin (bplane (front_stretcher w h t))) <-> t + (5#2) <= shelf_spacing h n t).
Proof.
  intros top.
  assert (Htop : top == h - (3#2) - shelf_spacing h n t + t).
  { unfold top. cbn [shelf bplane origin pz].
    destruct (Z.to_nat n) as [|i] eqn:Em; [lia|]. simpl pred.
    pose proof (shelf_spacing_fill h n t ltac:(lia)) as Hfill.
    assert (En : inject_Z n == Qnat i + 1).
    { rewrite <- Qnat_S. unfold Qnat. rewrite <- Em, Z2Nat.id by lia. reflexivity. }
    rewrite En in Hfill. rewrite z_pos_eq. nra. }
  split; [exact Htop|].
  cbn [front_stretcher back_stretcher bplane origin pz]. unfold stretcher_width.
  split; [reflexivity|]. split; [reflexivity|]. split; intros; lra.
Qed.

Lemma top_shelf_below_stretchers_witness :
  (0 < 1)%Z
  /\ pz (origin (bplane (shelf 30 24 (61#2) 1 (3#4) 0))) + (3#4)
     <= pz (origin (bplane (front_stretcher 30 (61#2) (3#4)))).
Proof.
  assert (Hn : (0 < 1)%Z) by lia. split; [exact Hn|].
  destruct (top_shelf_below_stretchers 30 24 (61#2) 1 (3#4) Hn) as (_ & _ & _ & H).
  apply H. discriminate.
Defined.

Lemma Qltb_iff x y : Qltb x y = true <-> x < y.
Proof.
  unfold Qltb. rewrite negb_true_iff. split; intros H.
  - apply Qnot_le_lt. intros H'. apply Qle_bool_iff in H'. congruence.
  - destruct (Qle_bool y x) eqn:E; [apply Qle_bool_iff in E; lra | reflexivity].
Qed.

Lemma forallb_shelves w d h n t :
  forallb extents_positive (breps (shelves w d h n t)) =
  if Z.ltb 0 n then extents_positive (shelf w d h n t 0) else true.
Proof.
  unfold shelves. destruct (Z.ltb 0 n) eqn:En; [|reflexivity].
  assert (Hm : (1 <= Z.to_nat n)%nat) by (apply Z.ltb_lt in En; lia).
  assert (G : forall m s, forallb extents_positive
                (breps (map (fun i => BrepObj ("Shelf " ++ nat_to_string (S i))%string
                                              (shelf w d h n t i)) (seq s m)))
              = (Nat.eqb m 0 || extents_positive (shelf w d h n t 0))%bool).
  { induction m as [|m IH]; intros s; [reflexivity|].
    simpl. rewrite IH. change (extents_positive (shelf w d h n t s))
      with (extents_positive (shelf w d h n t 0)).
    destruct (extents_positive (shelf w d h n t 0)); destruct m; reflexivity. }
  rewrite G. destruct (Z.to_nat n); [lia | reflexivity].
Qed.

(** Every Brep the script builds has three positive sizes exactly when
    thickness > 0, height > 1/8, width > 1.5 and depth > 31/16, and, when
    shelves are built, width > 25/16 and depth > 17/8. *)
Theorem panels_nondegenerate_iff w d h n t :
  forallb extents_positive (breps (create_parametric_cabinet w d h n t)) = true
  <-> 0 < t /\ (1#8) < h /\ (3#2) < w /\ (31#16) < d
      /\ ((0 < n)%Z -> (25#16) < w /\ (17#8) < d).
Proof.
  unfold create_parametric_cabinet.
  rewrite !breps_app, !forallb_app, forallb_shelves.
  cbn [breps forallb app].
  unfold extents_positive, iv_len.
  cbn [xsize ysize zsize t0 t1 left_side right_side back bottom front_stretcher back_stretcher
       shelf left_door right_door].
  unfold back_width, back_thickness, bottom_depth, stretcher_width,
    shelf_width, shelf_depth, door_width, door_height, door_gap, top_gap, bottom_gap.
  unfold side_width, bottom_width.
  destruct (Z.ltb_spec 0 n) as [Hn|Hn];
    rewrite ?andb_true_r, ?andb_true_iff, ?Qltb_iff; halves.
  - split.
    + intros H. repeat match goal with H : _ /\ _ |- _ => destruct H end.
      repeat split; intros; lra.
    + intros (H1 & H2 & H3 & H4 & H5). destruct (H5 Hn).
      repeat split; lra.
  - split.
    + intros H. repeat match goal with H : _ /\ _ |- _ => destruct H end.
      repeat split; intros; lia || lra.
    + intros (H1 & H2 & H3 & H4 & H5). repeat split; lra.
Qed.

(** ** [src/scripts/BlockLibrary.py]: [insert_block] *)

Module BlockLibrary.

Local Open Scope string_scope.

Definition GITHUB_USER := "aarslanovic".
Definition REPO_NAME := "AMAR.IO_WORKSHOP".
Definition BRANCH := "main".
Definition BLOCKS_BASE_URL :=
  "https://raw.githubusercontent.com/" ++ GITHUB_USER ++ "/" ++ REPO_NAME ++ "/"
  ++ BRANCH ++ "/blocks/".

(** Python's [s.replace(old, new)] for a non-empty [old]: occurrences are
    replaced left to right without overlapping. *)
Fixpoint str_replace_aux (fuel : nat) (old new s : string) : string :=
  match fuel with
  | O => s
  | S fuel' =>
      match s with
      | EmptyString => EmptyString
      | String c s' =>
          if String.prefix old s
          then new ++ str_replace_aux fuel' old new
                        (substring (String.length old) (String.length s - String.length old) s)
          else String c (str_replace_aux fuel' old new s')
      end
  end.

Definition str_replace (old new s : string) : string :=
  str_replace_aux (String.length s) old new s.

(** A catalog entry: [block_info['name']], [block_info['file']] and the
    optional [block_info['id']]. *)
Record BlockInfo := mkBlockInfo { name : string; file : string; id : option string }.

(** [block_info.get('id', block_file.replace('/', '_').replace('.3dm', ''))] *)
Definition block_id (info : BlockInfo) : string :=
  match id info with
  | Some i => i
  | None => str_replace ".3dm" "" (str_replace "/" "_" (file info))
  end.

(** What the host answers to the script: the document's block names
    ([rs.BlockNames()]), the button pressed in [rs.MessageBox], the point
    returned by [rs.GetPoint] ([None] when cancelled), the outcome of
    [download_file(url, local_path)], the cache directory, and the
    platform's [os.path.join] ([ntpath.join] under Windows,
    [posixpath.join] under macOS), left abstract. *)
Record Host := mkHost {
  block_names : list string;
  message_box_answer : Z;
  get_point : option Point3d;
  download_file : string -> string -> bool;
  cache_dir : string;
  path_join : string -> string -> string
}.

(** Observable actions of the script on the host (console prints omitted). *)
Inductive Event :=
| EvMessageBox (title : string) (buttons : Z)
| EvGetPoint (prompt : string)
| EvInsertBlock (bid : string) (pt : Point3d)
| EvEnsureCacheDir
| EvDownload (url local_path : string)
| EvImportFile (local_path bid : string) (pt : Point3d).

Definition insert_block (host : Host) (info : BlockInfo) : list Event :=
  let bid := block_id info in
  if existsb (String.eqb bid) (block_names host) then
    EvMessageBox "Block Exists" (Z.lor 4 32) ::
    (if Z.eqb (message_box_answer host) 7 then []
     else EvGetPoint "Pick insertion point" ::
          match get_point host with
          | Some pt => [EvInsertBlock bid pt]
          | None => []
          end)
  else
    let local_file := path_join host (cache_dir host) (str_replace "/" "_" (file info)) in
    let block_url := BLOCKS_BASE_URL ++ file info in
    EvEnsureCacheDir :: EvDownload block_url local_file ::
    (if negb (download_file host block_url local_file)
     then [EvMessageBox "Download Error" 0]
     else EvGetPoint ("Pick insertion point for " ++ name info) ::
          match get_point host with
          | Some pt => [EvImportFile local_file bid pt]
          | None => []
          end).

Example block_id_default :
  block_id (mkBlockInfo "Chair" "seating/chair_01.3dm" None) = "seating_chair_01".
Proof. reflexivity. Qed.

Lemma existsb_eqb_in (x : string) l : In x l -> existsb (String.eqb x) l = true.
Proof.
  intros Hin. apply existsb_exists. exists x. split; [exact Hin | apply String.eqb_refl].
Qed.

(** Claim C9: when the block's identifier is already among the document's
    block names, [insert_block] downloads nothing (no cache directory, no
    [download_file], no file import): it asks the Yes/No question and then
    either stops (answer 7, No) or asks for a point and inserts the
    existing block there (or stops when no point is picked). *)
Theorem insert_existing_no_download host info :
  In (block_id info) (block_names host) ->
  (forall url p, ~ In (EvDownload url p) (insert_block host info))
  /\ ~ In EvEnsureCacheDir (insert_block host info)
  /\ (forall p b pt, ~ In (EvImportFile p b pt) (insert_block host info))
  /\ ((message_box_answer host = 7%Z
       /\ insert_block host info = [EvMessageBox "Block Exists" 36])
      \/ (message_box_answer host <> 7%Z
          /\ insert_block host info =
             EvMessageBox "Block Exists" 36 :: EvGetPoint "Pick insertion point" ::
             match get_point host with
             | Some pt => [EvInsertBlock (block_id info) pt]
             | None => []
             end)).
Proof.
  intros Hin. unfold insert_block. rewrite (existsb_eqb_in _ _ Hin).
  destruct (Z.eqb_spec (message_box_answer host) 7) as [E | E];
    destruct (get_point host) as [pt|]; simpl;
    (split; [intros u p H; intuition discriminate|]);
    (split; [intros H; intuition discriminate|]);
    (split; [intros p b q H; intuition discriminate|]);
    [left | left | right | right]; split; auto.
Qed.

(** [posixpath.join(a, b)], the [os.path.join] of macOS. *)
Definition posix_join (a b : string) : string :=
  if String.prefix "/" b then b
  else match a with
       | EmptyString => b
       | _ => if String.eqb (substring (String.length a - 1) 1 a) "/"
              then a ++ b else a ++ "/" ++ b
       end.

Definition sample_host : Host :=
  mkHost ["seating_chair_01"] 6 (Some (mkPoint 1 2 0)) (fun _ _ => true) "cache" posix_join.

Lemma insert_existing_no_download_witness :
  In (block_id (mkBlockInfo "Chair" "seating/chair_01.3dm" None)) (block_names sample_host)
  /\ insert_block sample_host (mkBlockInfo "Chair" "seating/chair_01.3dm" None) =
     [EvMessageBox "Block Exists" 36; EvGetPoint "Pick insertion point";
      EvInsertBlock "seating_chair_01" (mkPoint 1 2 0)].
Proof.
  assert (Hin : In (block_id (mkBlockInfo "Chair" "seating/chair_01.3dm" None))
                   (block_names sample_host)) by (simpl; auto).
  split; [exact Hin|].
  destruct (insert_existing_no_download sample_host _ Hin) as (_ & _ & _ & [[E _] | [_ ->]]).
  - discriminate E.
  - reflexivity.
Defined.

End BlockLibrary.

(** ** [src/scripts/BlockLibrary.py]: cache file names, the catalog and
    [browse_and_insert] *)

Module BlockCatalog.

Import BlockLibrary.
Local Open Scope string_scope.

(** *** [block_file.replace('/', '_')] *)

(** The replacement of the single character ['/'] by ['_'], character by
    character. *)
Fixpoint slash_to_underscore (s : string) : string :=
  match s with
  | EmptyString => EmptyString
  | String c s' =>
      String (if Ascii.eqb c "/"%char then "_"%char else c) (slash_to_underscore s')
  end.

Lemma substring_0_length (s : string) : substring 0 (String.length s) s = s.
Proof. induction s as [|c s IH]; simpl; [reflexivity | now rewrite IH]. Qed.

Lemma prefix_slash c s : String.prefix "/" (String c s) = Ascii.eqb c "/".
Proof.
  change (String.prefix "/" (String c s))
    with (if ascii_dec "/" c then String.prefix "" s else false).
  destruct (ascii_dec "/" c) as [<- | Hc].
  - destruct s; reflexivity.
  - destruct (Ascii.eqb_spec c "/"); congruence.
Qed.

Lemma str_replace_aux_slash fuel s :
  (String.length s <= fuel)%nat ->
  str_replace_aux fuel "/" "_" s = slash_to_underscore s.
Proof.
  revert s; induction fuel as [|fuel IH]; intros [|c s] Hlen;
    try reflexivity; [simpl in Hlen; lia|].
  change (str_replace_aux (S fuel) "/" "_" (String c s)) with
    (if String.prefix "/" (String c s)
     then "_" ++ str_replace_aux fuel "/" "_"
                   (substring 1 (String.length (String c s) - 1) (String c s))
     else String c (str_replace_aux fuel "/" "_" s)).
  rewrite prefix_slash. simpl in Hlen |- *.
  destruct (Ascii.eqb_spec c "/") as [-> | Hc].
  - rewrite Nat.sub_0_r, substring_0_length, IH by lia. reflexivity.
  - rewrite IH by lia. reflexivity.
Qed.

Lemma str_replace_slash s : str_replace "/" "_" s = slash_to_underscore s.
Proof. apply str_replace_aux_slash. lia. Qed.

Lemma slash_to_underscore_app a b :
  slash_to_underscore (a ++ b) = slash_to_underscore a ++ slash_to_underscore b.
Proof. induction a as [|c a IH]; simpl; [reflexivity | now rewrite IH]. Qed.

Lemma slash_to_underscore_no_slash s :
  forall n, String.get n (slash_to_underscore s) <> Some "/"%char.
Proof.
  induction s as [|c s IH]; intros [|n]; simpl; try discriminate; [|apply IH].
  destruct (Ascii.eqb_spec c "/") as [_ | Hc]; intros E; injection E as E;
    [discriminate E | exact (Hc E)].
Qed.

(** *** [get_blocks_by_category] *)

(** A catalog entry as [browse_and_insert] reads it: [b['name']],
    [b['file']], and the optional ['category'], ['description'] and ['id']. *)
Record Block := mkBlock {
  b_name : string;
  b_file : string;
  b_category : option string;
  b_description : option string;
  b_id : option string
}.

(** The decoded [catalog.json] object: its ['blocks'] list when the key is
    present, and its other top-level keys (such as ['library_info']). *)
Record Catalog := mkCatalog {
  blocks : option (list Block);
  other_keys : list string
}.

(** [catalog.get('blocks', [])] *)
Definition catalog_blocks (c : Catalog) : list Block :=
  match blocks c with Some l => l | None => [] end.

(** [block.get('category', 'uncategorized')] *)
Definition category (b : Block) : string :=
  match b_category b with Some k => k | None => "uncategorized" end.

(** A Python dict with string keys, in insertion order. *)
Definition Dict (V : Type) := list (string * V).

Fixpoint lookup {V} (k : string) (d : Dict V) : option V :=
  match d with
  | [] => None
  | (k', v) :: d' => if String.eqb k' k then Some v else lookup k d'
  end.

(** One iteration of the loop: [if cat not in blocks_by_cat:
    blocks_by_cat[cat] = []] then [blocks_by_cat[cat].append(block)]. *)
Fixpoint add_block (cat : string) (b : Block) (d : Dict (list Block)) : Dict (list Block) :=
  match d with
  | [] => [(cat, [b])]
  | (k, v) :: d' =>
      if String.eqb k cat then (k, (v ++ [b])%list) :: d' else (k, v) :: add_block cat b d'
  end.

Definition get_blocks_by_category (catalog : Catalog) : Dict (list Block) :=
  fold_left (fun d b => add_block (category b) b d) (catalog_blocks catalog) [].

Definition in_category (k : string) (b : Block) : bool := String.eqb (category b) k.

Lemma lookup_add_block k cat b d :
  lookup k (add_block cat b d) =
  if String.eqb cat k
  then Some (match lookup k d with Some v => (v ++ [b])%list | None => [b] end)
  else lookup k d.
Proof.
  induction d as [|[k' v] d IH]; simpl.
  - destruct (String.eqb cat k); reflexivity.
  - destruct (String.eqb_spec k' cat) as [-> | Hne]; simpl.
    + destruct (String.eqb cat k); reflexivity.
    + rewrite IH. destruct (String.eqb_spec cat k) as [<- | _]; [|reflexivity].
      destruct (String.eqb_spec k' cat); [contradiction | reflexivity].
Qed.

Lemma lookup_fold_add k l d :
  lookup k (fold_left (fun d b => add_block (category b) b d) l d) =
  match lookup k d, filter (in_category k) l with
  | None, [] => None
  | None, g => Some g
  | Some v, g => Some (v ++ g)%list
  end.
Proof.
  revert d; induction l as [|b l IH]; intros d; simpl.
  - destruct (lookup k d); [now rewrite app_nil_r | reflexivity].
  - rewrite IH, lookup_add_block.
    change (String.eqb (category b) k) with (in_category k b).
    destruct (in_category k b).
    + destruct (lookup k d); [now rewrite <- app_assoc | reflexivity].
    + reflexivity.
Qed.

Lemma keys_add_block k cat b d :
  In k (map fst (add_block cat b d)) <-> k = cat \/ In k (map fst d).
Proof.
  induction d as [|[k' v] d IH]; simpl; [intuition congruence|].
  destruct (String.eqb_spec k' cat) as [-> | _]; simpl; [intuition congruence|].
  rewrite IH. tauto.
Qed.

Lemma nodup_add_block cat b d :
  NoDup (map fst d) -> NoDup (map fst (add_block cat b d)).
Proof.
  induction d as [|[k' v] d IH]; simpl; intros Hnd.
  - constructor; [intros [] | constructor].
  - inversion Hnd as [|? ? Hnin Hnd']; subst.
    destruct (String.eqb_spec k' cat) as [-> | Hne]; simpl.
    + constructor; assumption.
    + constructor; [|now apply IH].
      rewrite keys_add_block. intros [E | E]; [congruence | contradiction].
Qed.

Definition total_length {V} (d : Dict (list V)) : nat :=
  fold_right (fun kv n => List.length (snd kv) + n)%nat 0%nat d.

Lemma total_length_add_block cat b d :
  total_length (add_block cat b d) = S (total_length d).
Proof.
  induction d as [|[k' v] d IH]; simpl; [reflexivity|].
  destruct (String.eqb k' cat); simpl.
  - rewrite length_app. simpl. lia.
  - rewrite IH. lia.
Qed.

Lemma fold_add_invariant l d :
  NoDup (map fst d) ->
  let d' := fold_left (fun d b => add_block (category b) b d) l d in
  NoDup (map fst d')
  /\ (forall k, In k (map fst d') <-> In k (map fst d) \/ exists b, In b l /\ category b = k)
  /\ total_length d' = (total_length d + List.length l)%nat.
Proof.
  revert d; induction l as [|b l IH]; intros d Hnd; simpl.
  - split; [assumption|]. split; [firstorder | lia].
  - destruct (IH (add_block (category b) b d) (nodup_add_block _ _ _ Hnd))
      as (H1 & H2 & H3).
    split; [exact H1|]. split.
    + intros k. rewrite H2, keys_add_block. split.
      * intros [[E | E] | (b' & Hb & Hc)].
        -- right. exists b. auto.
        -- left. exact E.
        -- right. exists b'. auto.
      * intros [E | (b' & [<- | Hb] & Hc)].
        -- left. right. exact E.
        -- left. left. auto.
        -- right. exists b'. auto.
    + rewrite H3, total_length_add_block. lia.
Qed.

(** *** [load_catalog] and [browse_and_insert] *)

Definition CATALOG_URL :=
  "https://raw.githubusercontent.com/" ++ GITHUB_USER ++ "/" ++ REPO_NAME ++ "/"
  ++ BRANCH ++ "/catalog.json".

(** What [browse_and_insert] gets from its environment: the host seen by
    [insert_block] and [download_file], the result of [json.load] on the
    downloaded catalog ([None] when it raises), the entry picked in
    [rs.ListBox(items, message, title)] ([None] when cancelled), and
    Python's [str.title()], whose Unicode case tables are not modelled and
    which is left abstract. *)
Record Session := mkSession {
  host : Host;
  catalog_file : option Catalog;
  list_box : list string -> string -> option string;
  title : string -> string
}.

(** Observable actions of [browse_and_insert]: those of [insert_block] and
    [load_catalog], and its own message and list boxes. *)
Inductive MenuEvent :=
| Io (e : Event)
| EvMessage (text title : string)
| EvListBox (items : list string) (message title : string).

(** How [browse_and_insert] ends: it returns, or raises. *)
Inductive Outcome := Done | Raised (exn : string).

Definition catalog_path (s : Session) : string :=
  path_join (host s) (cache_dir (host s)) "catalog.json".

Definition load_events (s : Session) : list MenuEvent :=
  [Io EvEnsureCacheDir; Io (EvDownload CATALOG_URL (catalog_path s))].

Definition load_catalog (s : Session) : list MenuEvent * option Catalog :=
  (load_events s,
   if download_file (host s) CATALOG_URL (catalog_path s) then catalog_file s else None).

(** [not catalog] for a decoded JSON object: it is empty. *)
Definition truthy (c : Catalog) : bool :=
  match blocks c, other_keys c with
  | None, [] => false
  | _, _ => true
  end.

(** [sorted(...)] on strings, by insertion (the keys are distinct). *)
Fixpoint insert_sorted (x : string) (l : list string) : list string :=
  match l with
  | [] => [x]
  | y :: l' => if String.leb x y then x :: l else y :: insert_sorted x l'
  end.

Fixpoint sort (l : list string) : list string :=
  match l with
  | [] => []
  | x :: l' => insert_sorted x (sort l')
  end.

(** [str.title()] restricted to ASCII text: a letter is upper-cased when it
    follows a non-letter (or starts the string), lower-cased otherwise.
    Other bytes are left as they are and count as uncased, which differs
    from Python on non-ASCII letters; only the sample sessions use it. *)
Fixpoint ascii_title_aux (prev_cased : bool) (s : string) : string :=
  match s with
  | EmptyString => EmptyString
  | String c s' =>
      let n := nat_of_ascii c in
      let upper := ((65 <=? n) && (n <=? 90))%nat in
      let lower := ((97 <=? n) && (n <=? 122))%nat in
      let c' := if prev_cased
                then (if upper then ascii_of_nat (n + 32) else c)
                else (if lower then ascii_of_nat (n - 32) else c) in
      String c' (ascii_title_aux (upper || lower) s')
  end.

Definition ascii_title (s : string) : string := ascii_title_aux false s.

(** [f"{b['name']} - {b.get('description', '')}"] *)
Definition label (b : Block) : string :=
  b_name b ++ " - " ++ match b_description b with Some d => d | None => "" end.

(** [list.index(x)]; [None] stands for the [ValueError]. *)
Fixpoint index (x : string) (l : list string) : option nat :=
  match l with
  | [] => None
  | y :: l' => if String.eqb y x then Some 0%nat else option_map S (index x l')
  end.

(** [if not answer: return] *)
Definition nonempty (o : option string) : option string :=
  match o with
  | None | Some EmptyString => None
  | Some x => Some x
  end.

Definition to_info (b : Block) : BlockInfo := mkBlockInfo (b_name b) (b_file b) (b_id b).

Definition category_menu (c : Catalog) : list string :=
  sort (map fst (get_blocks_by_category c)).

Definition block_menu_message (s : Session) (category : string) : string :=
  "Select Block from " ++ title s category.

Definition load_failed_text :=
  "Failed to load block library. Check your internet connection.".

Definition browse_and_insert (s : Session) : list MenuEvent * Outcome :=
  let (ev0, loaded) := load_catalog s in
  match loaded with
  | None => ((ev0 ++ [EvMessage load_failed_text "Error"])%list, Done)
  | Some catalog =>
    if negb (truthy catalog) then ((ev0 ++ [EvMessage load_failed_text "Error"])%list, Done) else
    let blocks_by_cat := get_blocks_by_category catalog in
    match sort (map fst blocks_by_cat) with
    | [] => ((ev0 ++ [EvMessage "No blocks found in library." "Error"])%list, Done)
    | categories =>
      let ev1 := (ev0 ++ [EvListBox categories "Select Block Category" "Block Library"])%list in
      match nonempty (list_box s categories "Select Block Category") with
      | None => (ev1, Done)
      | Some category =>
        match lookup category blocks_by_cat with
        | None => (ev1, Raised "KeyError")
        | Some blocks_in_cat =>
          let block_names := map label blocks_in_cat in
          let msg := block_menu_message s category in
          let ev2 := (ev1 ++ [EvListBox block_names msg "Block Library"])%list in
          match nonempty (list_box s block_names msg) with
          | None => (ev2, Done)
          | Some selected =>
            match index selected block_names with
            | None => (ev2, Raised "ValueError")
            | Some i =>
              match nth_error blocks_in_cat i with
              | Some block_info => ((ev2 ++ map Io (insert_block (host s) (to_info block_info)))%list, Done)
              | None => (ev2, Raised "IndexError")
              end
            end
          end
        end
      end
    end
  end.

(** *** Helper lemmas *)

Lemma insert_sorted_perm x l : Permutation (insert_sorted x l) (x :: l).
Proof.
  induction l as [|y l IH]; simpl; [reflexivity|].
  destruct (String.leb x y); [reflexivity|].
  rewrite IH. apply perm_swap.
Qed.

Lemma sort_perm l : Permutation (sort l) l.
Proof.
  induction l as [|x l IH]; simpl; [reflexivity|].
  rewrite insert_sorted_perm, IH. reflexivity.
Qed.

Definition str_le (a b : string) : Prop := String.leb a b = true.

Lemma insert_sorted_sorted x l : Sorted str_le l -> Sorted str_le (insert_sorted x l).
Proof.
  induction l as [|y l IH]; simpl; intros Hs.
  - repeat constructor.
  - destruct (String.leb x y) eqn:Hxy.
    + constructor; [exact Hs | constructor; exact Hxy].
    + apply Sorted_inv in Hs as [Hs Hhd].
      assert (Hyx : str_le y x).
      { destruct (String.leb_total x y); [congruence | assumption]. }
      constructor; [now apply IH|].
      destruct l as [|z l]; simpl; [constructor; exact Hyx|].
      destruct (String.leb x z); constructor; [exact Hyx|].
      now apply HdRel_inv in Hhd.
Qed.

Lemma sort_sorted l : Sorted str_le (sort l).
Proof. induction l; simpl; [constructor | now apply insert_sorted_sorted]. Qed.

Lemma index_map_label x l :
  match index x (map label l) with Some i => nth_error l i | None => None end =
  find (fun b => String.eqb (label b) x) l.
Proof.
  induction l as [|b l IH]; simpl; [reflexivity|].
  destruct (String.eqb (label b) x); [reflexivity|].
  destruct (index x (map label l)); exact IH.
Qed.

Lemma blocks_by_category_lookup' c k :
  lookup k (get_blocks_by_category c) =
  match filter (in_category k) (catalog_blocks c) with [] => None | g => Some g end.
Proof.
  unfold get_blocks_by_category. rewrite lookup_fold_add. simpl.
  destruct (filter (in_category k) (catalog_blocks c)); reflexivity.
Qed.

Lemma blocks_by_category_invariant c :
  let G := get_blocks_by_category c in
  NoDup (map fst G)
  /\ (forall k, In k (map fst G) <-> exists b, In b (catalog_blocks c) /\ category b = k)
  /\ total_length G = List.length (catalog_blocks c).
Proof.
  destruct (fold_add_invariant (catalog_blocks c) [] (NoDup_nil _)) as (H1 & H2 & H3).
  split; [exact H1|]. split; [|exact H3].
  intros k. rewrite H2. simpl. tauto.
Qed.

Lemma not_in_existsb (x : string) l : existsb (String.eqb x) l = false -> ~ In x l.
Proof. intros E Hin. rewrite (existsb_eqb_in _ _ Hin) in E. discriminate. Qed.

Lemma nonempty_some (x : string) : x <> "" -> nonempty (Some x) = Some x.
Proof. destruct x; [contradiction | reflexivity]. Qed.

Lemma find_label_in l (bs : list Block) :
  In l (map label bs) -> exists b, find (fun b => String.eqb (label b) l) bs = Some b.
Proof.
  induction bs as [|b bs IH]; simpl; [intros []|].
  destruct (String.eqb_spec (label b) l) as [_ | Hne]; [eauto|].
  intros [E | Hin]; [contradiction | exact (IH Hin)].
Qed.

Lemma category_menu_in c k :
  In k (category_menu c) <-> exists b, In b (catalog_blocks c) /\ category b = k.
Proof.
  unfold category_menu. destruct (blocks_by_category_invariant c) as (_ & Hk & _).
  rewrite <- Hk. split; intros H.
  - exact (Permutation_in _ (sort_perm _) H).
  - exact (Permutation_in _ (Permutation_sym (sort_perm _)) H).
Qed.

Definition sample_catalog : Catalog :=
  mkCatalog
    (Some [mkBlock "Chair" "seating/chair_01.3dm" (Some "seating") (Some "Wooden") None;
           mkBlock "Lamp" "lighting/lamp.3dm" (Some "lighting") None (Some "lamp_v2");
           mkBlock "Stool" "seating/stool.3dm" (Some "seating") (Some "Tall") None])
    ["library_info"].

Definition fresh_host (downloads : bool) : Host :=
  mkHost [] 6 (Some (mkPoint 1 2 0)) (fun _ _ => downloads) "cache" posix_join.

Definition sample_session (downloads : bool) (catalog : option Catalog) : Session :=
  mkSession (fresh_host downloads) catalog
    (fun items msg =>
       if String.eqb msg "Select Block Category" then Some "seating" else Some "Stool - Tall")
    ascii_title.

Definition chair_info : BlockInfo := mkBlockInfo "Chair" "seating/chair_01.3dm" None.

(** *** Properties *)

(** [get_blocks_by_category] groups the catalog's blocks by their category
    (['uncategorized'] when absent): the entry of a category holds exactly
    the blocks of that category, in catalog order, and a category without
    blocks has no entry; the keys are distinct, they are exactly the
    categories that occur, and no block is lost or duplicated. *)
Theorem blocks_by_category_groups c :
  let G := get_blocks_by_category c in
  (forall k, lookup k G =
             match filter (in_category k) (catalog_blocks c) with
             | [] => None
             | g => Some g
             end)
  /\ NoDup (map fst G)
  /\ (forall k, In k (map fst G) <-> exists b, In b (catalog_blocks c) /\ category b = k)
  /\ total_length G = List.length (catalog_blocks c).
Proof.
  split; [intros k; apply blocks_by_category_lookup'|].
  apply blocks_by_category_invariant.
Qed.

(** The category menu of [browse_and_insert] lists every category that
    occurs in the catalog exactly once, in ascending string order. *)
Theorem category_menu_sorted_distinct c :
  Sorted str_le (category_menu c)
  /\ NoDup (category_menu c)
  /\ (forall k, In k (category_menu c) <-> exists b, In b (catalog_blocks c) /\ category b = k).
Proof.
  split; [apply sort_sorted|]. split; [|apply category_menu_in].
  unfold category_menu. destruct (blocks_by_category_invariant c) as (Hnd & _ & _).
  exact (Permutation_NoDup (Permutation_sym (sort_perm _)) Hnd).
Qed.

(** Without an ['id'], the files ["a/b"] and ["a_b"] get the same block
    identifier and the same cache file: [insert_block] cannot tell them
    apart. *)
Theorem cache_name_collision n1 n2 a b :
  block_id (mkBlockInfo n1 (a ++ "/" ++ b) None) = block_id (mkBlockInfo n2 (a ++ "_" ++ b) None)
  /\ str_replace "/" "_" (a ++ "/" ++ b) = str_replace "/" "_" (a ++ "_" ++ b).
Proof.
  assert (E : str_replace "/" "_" (a ++ "/" ++ b) = str_replace "/" "_" (a ++ "_" ++ b)).
  { rewrite !str_replace_slash, !slash_to_underscore_app. reflexivity. }
  split; [|exact E].
  unfold block_id. cbn [BlockLibrary.id BlockLibrary.file]. now rewrite E.
Qed.

(** [insert_block] downloads only a block that is not in the document, from
    [BLOCKS_BASE_URL] followed by the block's file, to
    [os.path.join(cache_dir, name)] where [name] is the file with every
    ['/'] replaced by ['_']. The name has no ['/'] left; backslashes, [..]
    and drive prefixes are kept, so this alone does not keep the file inside
    the cache directory. *)
Theorem insert_block_downloads_to_cache host info url p :
  In (EvDownload url p) (insert_block host info) ->
  ~ In (block_id info) (block_names host)
  /\ url = BLOCKS_BASE_URL ++ file info
  /\ p = path_join host (cache_dir host) (str_replace "/" "_" (file info))
  /\ (forall n, String.get n (str_replace "/" "_" (file info)) <> Some "/"%char).
Proof.
  intros H. unfold insert_block in H.
  destruct (existsb (String.eqb (block_id info)) (block_names host)) eqn:Ex.
  - destruct (Z.eqb (message_box_answer host) 7), (get_point host);
      simpl in H; intuition discriminate.
  - destruct H as [H | [H | H]]; [discriminate | | ].
    + injection H as <- <-.
      split; [now apply not_in_existsb|]. split; [reflexivity|]. split; [reflexivity|].
      rewrite str_replace_slash. apply slash_to_underscore_no_slash.
    + destruct (download_file host _ _), (get_point host); simpl in H;
        intuition discriminate.
Qed.

Lemma insert_block_downloads_to_cache_witness :
  In (EvDownload (BLOCKS_BASE_URL ++ "seating/chair_01.3dm") "cache/seating_chair_01.3dm")
     (insert_block (fresh_host true) chair_info)
  /\ "cache/seating_chair_01.3dm"
     = posix_join "cache" (str_replace "/" "_" "seating/chair_01.3dm").
Proof.
  assert (H : In (EvDownload (BLOCKS_BASE_URL ++ "seating/chair_01.3dm")
                             "cache/seating_chair_01.3dm")
                 (insert_block (fresh_host true) chair_info))
    by (vm_compute; right; left; reflexivity).
  split; [exact H|].
  exact (proj1 (proj2 (proj2 (insert_block_downloads_to_cache _ _ _ _ H)))).
Defined.

(** A file import by [insert_block] is always of the file it has just
    downloaded successfully, under the block's identifier, at the point
    picked by the user. *)
Theorem insert_block_imports_downloaded host info p bid pt :
  In (EvImportFile p bid pt) (insert_block host info) ->
  bid = block_id info
  /\ ~ In (block_id info) (block_names host)
  /\ p = path_join host (cache_dir host) (str_replace "/" "_" (file info))
  /\ In (EvDownload (BLOCKS_BASE_URL ++ file info) p) (insert_block host info)
  /\ download_file host (BLOCKS_BASE_URL ++ file info) p = true
  /\ get_point host = Some pt.
Proof.
  intros H. unfold insert_block in *.
  destruct (existsb (String.eqb (block_id info)) (block_names host)) eqn:Ex.
  - destruct (Z.eqb (message_box_answer host) 7), (get_point host);
      simpl in H; intuition discriminate.
  - destruct (download_file host (BLOCKS_BASE_URL ++ file info)
                (path_join host (cache_dir host) (str_replace "/" "_" (file info)))) eqn:Ed;
      destruct (get_point host) as [q|] eqn:Eq; simpl in H;
      [| intuition discriminate | intuition discriminate | intuition discriminate].
    destruct H as [H | [H | [H | [H | []]]]]; try discriminate.
    injection H as <- <- <-.
    split; [reflexivity|]. split; [now apply not_in_existsb|]. split; [reflexivity|].
    split; [simpl; right; left; reflexivity|]. split; [exact Ed | reflexivity].
Qed.

Lemma insert_block_imports_downloaded_witness :
  In (EvImportFile "cache/seating_chair_01.3dm" "seating_chair_01" (mkPoint 1 2 0))
     (insert_block (fresh_host true) chair_info)
  /\ download_file (fresh_host true) (BLOCKS_BASE_URL ++ "seating/chair_01.3dm")
       "cache/seating_chair_01.3dm" = true.
Proof.
  assert (H : In (EvImportFile "cache/seating_chair_01.3dm" "seating_chair_01" (mkPoint 1 2 0))
                 (insert_block (fresh_host true) chair_info))
    by (vm_compute; right; right; right; left; reflexivity).
  split; [exact H|].
  exact (proj1 (proj2 (proj2 (proj2 (proj2 (insert_block_imports_downloaded _ _ _ _ _ H)))))).
Defined.

(** [browse_and_insert] reports a connection failure, and does nothing
    else, when the catalog cannot be downloaded or decoded, and also when
    the decoded catalog is the empty object [{}]. *)
Theorem browse_load_failure s :
  download_file (host s) CATALOG_URL (catalog_path s) = false
  \/ catalog_file s = None
  \/ catalog_file s = Some (mkCatalog None []) ->
  browse_and_insert s = ((load_events s ++ [EvMessage load_failed_text "Error"])%list, Done).
Proof.
  intros H. unfold browse_and_insert, load_catalog.
  destruct (download_file (host s) CATALOG_URL (catalog_path s)); [|reflexivity].
  destruct H as [H | [H | H]]; [discriminate | |]; rewrite H; reflexivity.
Qed.

Lemma browse_load_failure_witness :
  catalog_file (sample_session true (Some (mkCatalog None []))) = Some (mkCatalog None [])
  /\ browse_and_insert (sample_session true (Some (mkCatalog None [])))
     = ([Io EvEnsureCacheDir; Io (EvDownload CATALOG_URL "cache/catalog.json");
         EvMessage load_failed_text "Error"], Done).
Proof.
  split; [reflexivity|].
  exact (browse_load_failure (sample_session true (Some (mkCatalog None [])))
           (or_intror (or_intror eq_refl))).
Defined.

(** A catalog that decodes to a non-empty object without any block (no
    ['blocks'] key, or an empty list) is reported as an empty library,
    and nothing is offered or inserted. *)
Theorem browse_no_blocks s c :
  download_file (host s) CATALOG_URL (catalog_path s) = true ->
  catalog_file s = Some c ->
  c <> mkCatalog None [] ->
  catalog_blocks c = [] ->
  browse_and_insert s =
  ((load_events s ++ [EvMessage "No blocks found in library." "Error"])%list, Done).
Proof.
  intros Hd Hc Hne Hb. unfold browse_and_insert, load_catalog.
  rewrite Hd, Hc.
  assert (Ht : truthy c = true).
  { destruct c as [[bs|] [|k ks]]; try reflexivity. contradiction. }
  rewrite Ht. cbn [negb].
  unfold get_blocks_by_category. rewrite Hb. reflexivity.
Qed.

Lemma browse_no_blocks_witness :
  browse_and_insert (sample_session true (Some (mkCatalog None ["library_info"])))
  = ([Io EvEnsureCacheDir; Io (EvDownload CATALOG_URL "cache/catalog.json");
      EvMessage "No blocks found in library." "Error"], Done).
Proof.
  exact (browse_no_blocks (sample_session true (Some (mkCatalog None ["library_info"])))
           (mkCatalog None ["library_info"]) eq_refl eq_refl
           ltac:(discriminate) eq_refl).
Defined.

(** When the user picks a category offered in the first list box and a
    label offered in the second one (neither empty), [browse_and_insert]
    shows the labels of that category's blocks in catalog order, under the
    message ["Select Block from "] followed by the category's [str.title()],
    and calls [insert_block] on the first block of the category with the
    picked label; it raises nothing. *)
Theorem browse_inserts_selected s c k l :
  download_file (host s) CATALOG_URL (catalog_path s) = true ->
  catalog_file s = Some c ->
  list_box s (category_menu c) "Select Block Category" = Some k ->
  In k (category_menu c) -> k <> "" ->
  list_box s (map label (filter (in_category k) (catalog_blocks c)))
    (block_menu_message s k) = Some l ->
  In l (map label (filter (in_category k) (catalog_blocks c))) -> l <> "" ->
  exists b,
    find (fun b => String.eqb (label b) l) (filter (in_category k) (catalog_blocks c)) = Some b
    /\ browse_and_insert s =
       ((load_events s
         ++ [EvListBox (category_menu c) "Select Block Category" "Block Library";
             EvListBox (map label (filter (in_category k) (catalog_blocks c)))
               (block_menu_message s k) "Block Library"]
         ++ map Io (insert_block (host s) (to_info b)))%list, Done).
Proof.
  intros Hd Hc Hk Hkin Hk0 Hl Hlin Hl0.
  destruct (find_label_in _ _ Hlin) as [b Hb].
  exists b. split; [exact Hb|].
  pose proof (proj1 (category_menu_in c k) Hkin) as (b0 & Hb0 & Hcat).
  assert (Ht : truthy c = true).
  { unfold catalog_blocks in Hb0. destruct c as [[bs|] ks]; [reflexivity | destruct Hb0]. }
  unfold browse_and_insert, load_catalog. rewrite Hd, Hc, Ht. cbn [negb].
  fold (category_menu c).
  remember (category_menu c) as cm eqn:Ecm.
  destruct cm as [|k1 ks]; [destruct Hkin|].
  rewrite Hk, (nonempty_some _ Hk0), blocks_by_category_lookup'.
  remember (filter (in_category k) (catalog_blocks c)) as F eqn:EF.
  destruct F as [|b1 bs].
  - assert (Hin : In b0 (filter (in_category k) (catalog_blocks c))).
    { apply filter_In. split; [exact Hb0 | unfold in_category; now apply String.eqb_eq]. }
    rewrite <- EF in Hin. destruct Hin.
  - rewrite Hl, (nonempty_some _ Hl0).
    pose proof (index_map_label l (b1 :: bs)) as Ei.
    destruct (index l (map label (b1 :: bs))) as [i|].
    + rewrite Ei, Hb. rewrite <- app_assoc. reflexivity.
    + rewrite Hb in Ei. discriminate.
Qed.

Lemma browse_inserts_selected_witness :
  exists b,
    find (fun b => String.eqb (label b) "Stool - Tall")
      (filter (in_category "seating") (catalog_blocks sample_catalog)) = Some b
    /\ browse_and_insert (sample_session true (Some sample_catalog)) =
       ((load_events (sample_session true (Some sample_catalog))
         ++ [EvListBox (category_menu sample_catalog) "Select Block Category" "Block Library";
             EvListBox (map label (filter (in_category "seating") (catalog_blocks sample_catalog)))
               (block_menu_message (sample_session true (Some sample_catalog)) "seating") "Block Library"]
         ++ map Io (insert_block (fresh_host true) (to_info b)))%list, Done).
Proof.
  apply (browse_inserts_selected (sample_session true (Some sample_catalog)) sample_catalog
           "seating" "Stool - Tall"); try reflexivity; try discriminate;
    vm_compute; auto.
Defined.
End BlockCatalog.
